(** * Watch/Application/Adc.c : analog acquisition and low-battery monitor

    A shallow embedding of the MetaWatch ADC module.  The C globals become the
    fields of [adc_state]; every C function becomes a function on that record
    that also returns the log of what it did to the outside world (semaphore
    calls, converter accesses, routed messages).  Inputs that the C code
    obtains from the hardware or from other modules (the ADC12MEMx result, the
    number of times the busy bit is polled, the calibration provider, the
    power-good line, the bytes of the address space) are explicit arguments.

    Machine model
    - [unsigned int] is [uint_bits] wide, a parameter of the development (16 on
      the MSP430 this firmware is built for); every unsigned operation is
      written with its reduction modulo [2 ^ uint_bits];
    - [unsigned char] is 8 bits wide;
    - [double] is an IEEE 754 format with round-to-nearest-even, computed with
      the reference implementation of [SpecFloat] (no axioms, it evaluates).
      Adc.c does not say which one : the tool chains of the MSP430 offer a
      64-bit and a 32-bit [double], so the format is a parameter of the two
      conversion functions, [double_format].  A property that names no format
      is stated for the 64-bit one (the instance [binary64]); the property of
      the battery conversion is stated for both. *)

From Stdlib Require Import ZArith Lia List QArith Qround.
From Stdlib Require Floats.SpecFloat.
From stdpp Require Import base list gmap strings.

Local Open Scope Z_scope.

(* ===================================================================== *)
(** ** IEEE 754 arithmetic used by the two conversion functions          *)
(* ===================================================================== *)

Module IEEE.
Import SpecFloat.

Section Format.
Variables prec emax : Z.

(** [(double)n] for an integer [n] : the nearest representable value. *)
Definition of_Z (n : Z) : spec_float := binary_normalize prec emax n 0 false.

(** A literal written [m * 2^e]; every literal of Adc.c is exactly of this
    form (2.5 = 5 * 2^-1, the others are integers). *)
Definition lit (m e : Z) : spec_float := binary_normalize prec emax m e false.

Definition add := SFadd prec emax.
Definition mul := SFmul prec emax.
Definition div := SFdiv prec emax.

(** [(unsigned int)x] before the reduction to the width of the target :
    truncation toward zero. *)
Definition trunc (x : spec_float) : Z :=
  match x with
  | S754_finite s m e =>
      let a := match e with
               | Zneg p => Z.pos m / 2 ^ Z.pos p
               | _ => Z.pos m * 2 ^ e
               end in
      if s then - a else a
  | _ => 0
  end.

(** [((24300.0+38300.0)*2.5*1000.0)/(4095.0*24300.0)], evaluated in the
    order C gives to the expression. *)
Definition CONVERSION_FACTOR_BATTERY : spec_float :=
  div (mul (mul (add (of_Z 24300) (of_Z 38300)) (lit 5 (-1))) (of_Z 1000))
      (mul (of_Z 4095) (of_Z 24300)).

(** [2.5*10000.0/4096.0] *)
Definition CONVERSION_FACTOR : spec_float :=
  div (mul (lit 5 (-1)) (of_Z 10000)) (of_Z 4096).

Definition battery_counts_to_mv (Counts : Z) : Z :=
  trunc (mul CONVERSION_FACTOR_BATTERY (of_Z Counts)).

Definition counts_to_mv (Counts : Z) : Z :=
  trunc (mul CONVERSION_FACTOR (of_Z Counts)).
End Format.
End IEEE.

(** The two formats an MSP430 tool chain offers for [double]. *)
Definition binary64_prec : Z := 53.
Definition binary64_emax : Z := 1024.
Definition binary32_prec : Z := 24.
Definition binary32_emax : Z := 128.

(** Which of the two the build uses.  Nothing in Adc.c decides it (it is a
    compiler option), so the functions that compute in [double] take it as an
    argument. *)
Inductive double_format := binary64 | binary32.
Existing Class double_format.

Definition double_prec (f : double_format) : Z :=
  match f with binary64 => binary64_prec | binary32 => binary32_prec end.
Definition double_emax (f : double_format) : Z :=
  match f with binary64 => binary64_emax | binary32 => binary32_emax end.

(** The format of a statement that names none. *)
#[global] Existing Instance binary64.

(* ===================================================================== *)
(** ** Data model                                                         *)
(* ===================================================================== *)

Definition MAX_SAMPLES : Z := 10.
Definition DEFAULT_LOW_BATTERY_WARNING_LEVEL : Z := 3500.
Definition DEFAULT_LOW_BATTERY_BTOFF_LEVEL : Z := 3300.

(** The three input channels (ADC12MCTL0..2 / ADC12MEM0..2). *)
Inductive channel := HARDWARE_CFG | BATTERY_SENSE | LIGHT_SENSE.

(** The message types Adc.c puts in [pMsg->Type]. *)
Inductive eMessageType :=
| TurnRadioOnMsg
| LowBatteryBtOffMsgHost
| LowBatteryBtOffMsg
| LowBatteryWarningMsgHost
| LowBatteryWarningMsg
| SetVibrateMode.

Global Instance eMessageType_eq_dec : EqDecision eMessageType.
Proof. solve_decision. Defined.

(** A routed message buffer : its type and the payload bytes the monitor
    wrote into it. *)
Record tHostMsg := MkMsg { Type_ : eMessageType; pPayload : list Z }.

Global Instance tHostMsg_eq_dec : EqDecision tHostMsg.
Proof. solve_decision. Defined.

(** What a function of the module does to its environment, in program order. *)
Inductive event :=
| xSemaphoreTake                       (* xSemaphoreTake(AdcHardwareMutex,portMAX_DELAY) *)
| xSemaphoreGive                       (* xSemaphoreGive(AdcHardwareMutex) *)
| SENSE_ENABLE (ch : channel)          (* HARDWARE_CFG_SENSE_ENABLE, BATTERY_SENSE_ENABLE, LIGHT_SENSOR_L_GAIN *)
| SENSE_DISABLE (ch : channel)         (* HARDWARE_CFG_SENSE_DISABLE, BATTERY_SENSE_DISABLE, LIGHT_SENSOR_SHUTDOWN *)
| TaskDelayLpmDisable
| TaskDelayLpmEnable
| vTaskDelay (ticks : Z)
| CLEAR_START_ADDR                     (* ADC12CTL1 &= 0x0FFF *)
| SET_START_ADDR (ch : channel)        (* ADC12CTL1 |= ADC12CSTARTADD_n *)
| ENABLE_ADC
| DISABLE_ADC
| READ_BUSY                            (* one evaluation of ADC12CTL1 & ADC12BUSY *)
| READ_ADC12MEM (ch : channel)
| RouteMsg (m : tHostMsg)
| PrintStringAndTwoDecimals (s1 : string) (d1 : Z) (s2 : string) (d2 : Z).

Global Instance channel_eq_dec : EqDecision channel.
Proof. solve_decision. Defined.

Global Instance event_eq_dec : EqDecision event.
Proof. solve_decision. Defined.

(** The file-scope variables of Adc.c.  Two of them are not fields : [pMsg]
    is the handle of the buffer being filled, rendered by the message of each
    [RouteMsg] event, and [AdcHardwareMutex] is the gate of the task system
    at the end of the section below. *)
Record adc_state := MkAdc {
  HardwareConfiguration : Z;
  BatterySense : Z;
  LightSense : Z;
  BatterySenseSamples : list Z;
  LightSenseSamples : list Z;
  BatterySenseSampleIndex : Z;
  LightSenseSampleIndex : Z;
  BatterySenseAverageReady : Z;
  LightSenseAverageReady : Z;
  LowBatteryWarningMessageSent : Z;
  LowBatteryBtOffMessageSent : Z;
  LowBatteryWarningLevel : Z;
  LowBatteryBtOffLevel : Z
}.

(** C start-up state : statics are zero, the arrays hold MAX_SAMPLES zeros. *)
Definition boot_state : adc_state :=
  {| HardwareConfiguration := 0; BatterySense := 0; LightSense := 0;
     BatterySenseSamples := replicate (Z.to_nat MAX_SAMPLES) 0;
     LightSenseSamples := replicate (Z.to_nat MAX_SAMPLES) 0;
     BatterySenseSampleIndex := 0; LightSenseSampleIndex := 0;
     BatterySenseAverageReady := 0; LightSenseAverageReady := 0;
     LowBatteryWarningMessageSent := 0; LowBatteryBtOffMessageSent := 0;
     LowBatteryWarningLevel := 0; LowBatteryBtOffLevel := 0 |}.

(** What one conversion finds in the converter. *)
Record adc_hw := MkHw {
  ADC12MEM : Z;        (* the result register of the converted channel *)
  busy_polls : nat     (* how many times ADC12BUSY is still set when polled *)
}.

(** The calibration provider (hal_calibration). *)
Record calibration := MkCal {
  QueryCalibrationValid : bool;
  GetBatteryCalibrationValue : Z
}.

(** What LowBatteryMonitor reads from outside Adc.c. *)
Record monitor_env := MkEnv {
  QueryBatteryDebug : bool;
  QueryPowerGood : bool;
  memory : Z -> Z      (* the byte stored at each address *)
}.

(** [unsigned char] reduction and the byte found at an address. *)
Definition uchar (x : Z) : Z := x mod 256.
Definition load8 (mem : Z -> Z) (addr : Z) : Z := uchar (mem addr).

(** Modelled from the spec: UTL_BuildHstMsg (Utilities.c is not part of the
    sources).  It fills the buffer with the given type and copies [Length]
    bytes starting at the address [pData] into the payload ("casting an
    integer value to a pointer and reading from it", section 9). *)
Definition UTL_BuildHstMsg (mem : Z -> Z) (ty : eMessageType)
    (pData : Z) (Length : nat) : tHostMsg :=
  MkMsg ty (map (fun i : nat => load8 mem (pData + Z.of_nat i)) (seq 0 Length)).

(** A buffer whose only written field is [Type]. *)
Definition type_only (ty : eMessageType) : tHostMsg := MkMsg ty [].

(** tSetVibrateModePayload, in the order the fields are assigned :
    Enable, OnDurationLsb, OnDurationMsb, OffDurationLsb, OffDurationMsb,
    NumberOfCycles. *)
Definition vibrate_msg (on_msb off_msb : Z) : tHostMsg :=
  MkMsg SetVibrateMode [1; 0; on_msb; 0; off_msb; 5].

(** The two-byte little-endian encoding the host protocol expects. *)
Definition le16 (v : Z) : list Z := [v mod 256; v / 256].

(** The messages of a log. *)
Fixpoint routed (log : list event) : list tHostMsg :=
  match log with
  | [] => []
  | RouteMsg m :: rest => m :: routed rest
  | _ :: rest => routed rest
  end.

(** The message types of a log, in order. *)
Definition routed_types (log : list event) : list eMessageType :=
  map Type_ (routed log).

(* ===================================================================== *)
(** ** The persistent store (OSAL_Nv)                                     *)
(* ===================================================================== *)

(** Modelled from the spec: OsalNvWrite (OSAL_Nv.c is not part of the
    sources).  "A persistent key-value store with get(key) -> optional bytes /
    put(key, bytes) semantics"; the stored object is an [unsigned int], kept
    here as its value.  The write is assumed to succeed (section 7). *)
Definition OsalNvWrite (id : Z) (v : Z) (nv : gmap Z Z) : gmap Z Z :=
  <[id := v]> nv.

(** Modelled from the spec: OsalNvItemInit.  "Thresholds are loaded from
    persistent storage if present, else defaulted and written back" : when the
    item exists the buffer receives the stored value, otherwise the item is
    created from the buffer.  Returns the buffer and the store. *)
Definition OsalNvItemInit (id : Z) (buf : Z) (nv : gmap Z Z) : Z * gmap Z Z :=
  match nv !! id with
  | Some stored => (stored, nv)
  | None => (buf, <[id := buf]> nv)
  end.

(* ===================================================================== *)
(** ** The functions of Adc.c                                             *)
(* ===================================================================== *)

Section Adc.
(** Width of [unsigned int] on the target. *)
Variable uint_bits : Z.
(** Format of [double] on the target. *)
Context {double : double_format}.
(** The two item identifiers of NvIds.h (not part of the sources). *)
Variables NVID_LOW_BATTERY_WARNING_LEVEL NVID_LOW_BATTERY_BTOFF_LEVEL : Z.

Definition uint (x : Z) : Z := x mod 2 ^ uint_bits.

(** [return ((unsigned int)(CONVERSION_FACTOR_BATTERY*(double)Counts));] *)
Definition AdcCountsToBatteryVoltage (Counts : Z) : Z :=
  uint (IEEE.battery_counts_to_mv (double_prec double) (double_emax double)
          Counts).

(** [return ((unsigned int)(CONVERSION_FACTOR*(double)Counts));] *)
Definition AdcCountsToVoltage (Counts : Z) : Z :=
  uint (IEEE.counts_to_mv (double_prec double) (double_emax double) Counts).

(** [while(ADC12CTL1 & ADC12BUSY) vTaskDelay(0);] between the two low-power
    mode calls : [polls] busy reads, each followed by a yield, and the read
    that ends the loop. *)
Definition WaitForAdcBusy (polls : nat) : list event :=
  [TaskDelayLpmDisable]
    ++ flat_map (fun _ : nat => [READ_BUSY; vTaskDelay 0]) (seq 0 polls)
    ++ [READ_BUSY; TaskDelayLpmEnable].

(** [DISABLE_ADC(); DISABLE_REFERENCE(); xSemaphoreGive(AdcHardwareMutex);]
    (ENABLE_REFERENCE and DISABLE_REFERENCE expand to nothing). *)
Definition EndAdcCycle : list event := [DISABLE_ADC; xSemaphoreGive].

(** The three Start functions : AdcCheck() is compiled out ([#if 0]), the
    start address is cleared and set, the converter is enabled. *)
Definition StartHardwareCfgConversion : list event :=
  [CLEAR_START_ADDR; SET_START_ADDR HARDWARE_CFG; ENABLE_ADC].

Definition StartBatterySenseConversion : list event :=
  [CLEAR_START_ADDR; SET_START_ADDR BATTERY_SENSE; ENABLE_ADC].

Definition StartLightSenseConversion : list event :=
  [CLEAR_START_ADDR; SET_START_ADDR LIGHT_SENSE; ENABLE_ADC].

Definition FinishHardwareCfgCycle (hw : adc_hw) (st : adc_state)
  : adc_state * list event :=
  ({| HardwareConfiguration := AdcCountsToVoltage (ADC12MEM hw);
      BatterySense := BatterySense st;
      LightSense := LightSense st;
      BatterySenseSamples := BatterySenseSamples st;
      LightSenseSamples := LightSenseSamples st;
      BatterySenseSampleIndex := BatterySenseSampleIndex st;
      LightSenseSampleIndex := LightSenseSampleIndex st;
      BatterySenseAverageReady := BatterySenseAverageReady st;
      LightSenseAverageReady := LightSenseAverageReady st;
      LowBatteryWarningMessageSent := LowBatteryWarningMessageSent st;
      LowBatteryBtOffMessageSent := LowBatteryBtOffMessageSent st;
      LowBatteryWarningLevel := LowBatteryWarningLevel st;
      LowBatteryBtOffLevel := LowBatteryBtOffLevel st |},
   [READ_ADC12MEM HARDWARE_CFG; SENSE_DISABLE HARDWARE_CFG; DISABLE_ADC]
     ++ EndAdcCycle).

Definition HardwareCfgCycle (hw : adc_hw) (st : adc_state)
  : adc_state * list event :=
  let '(st', fin) := FinishHardwareCfgCycle hw st in
  (st', [xSemaphoreTake; SENSE_ENABLE HARDWARE_CFG]
          ++ StartHardwareCfgConversion
          ++ WaitForAdcBusy (busy_polls hw)
          ++ fin).

(** The value stored in [BatterySense] : the conversion, plus the
    calibration value in [unsigned int] arithmetic when it is valid. *)
Definition FinishBatterySenseCycle (hw : adc_hw) (cal : calibration)
    (st : adc_state) : adc_state * list event :=
  let v0 := AdcCountsToBatteryVoltage (ADC12MEM hw) in
  let v := if QueryCalibrationValid cal
           then uint (v0 + GetBatteryCalibrationValue cal)
           else v0 in
  (* BatterySenseSamples[BatterySenseSampleIndex++] = BatterySense;
     an index past the array does not occur after InitializeAdc; there the
     list is left as it is *)
  let samples := <[Z.to_nat (BatterySenseSampleIndex st) := v]>
                   (BatterySenseSamples st) in
  let idx := uchar (BatterySenseSampleIndex st + 1) in
  let wrap := MAX_SAMPLES <=? idx in
  ({| HardwareConfiguration := HardwareConfiguration st;
      BatterySense := v;
      LightSense := LightSense st;
      BatterySenseSamples := samples;
      LightSenseSamples := LightSenseSamples st;
      BatterySenseSampleIndex := if wrap then 0 else idx;
      LightSenseSampleIndex := LightSenseSampleIndex st;
      BatterySenseAverageReady :=
        if wrap then 1 else BatterySenseAverageReady st;
      LightSenseAverageReady := LightSenseAverageReady st;
      LowBatteryWarningMessageSent := LowBatteryWarningMessageSent st;
      LowBatteryBtOffMessageSent := LowBatteryBtOffMessageSent st;
      LowBatteryWarningLevel := LowBatteryWarningLevel st;
      LowBatteryBtOffLevel := LowBatteryBtOffLevel st |},
   [READ_ADC12MEM BATTERY_SENSE; SENSE_DISABLE BATTERY_SENSE]
     ++ EndAdcCycle).

Definition BatterySenseCycle (hw : adc_hw) (cal : calibration)
    (st : adc_state) : adc_state * list event :=
  let '(st', fin) := FinishBatterySenseCycle hw cal st in
  (st', [xSemaphoreTake; SENSE_ENABLE BATTERY_SENSE]
          ++ StartBatterySenseConversion
          ++ WaitForAdcBusy (busy_polls hw)
          ++ fin).

Definition FinishLightSenseCycle (hw : adc_hw) (st : adc_state)
  : adc_state * list event :=
  let v := AdcCountsToVoltage (ADC12MEM hw) in
  let samples := <[Z.to_nat (LightSenseSampleIndex st) := v]>
                   (LightSenseSamples st) in
  let idx := uchar (LightSenseSampleIndex st + 1) in
  let wrap := MAX_SAMPLES <=? idx in
  ({| HardwareConfiguration := HardwareConfiguration st;
      BatterySense := BatterySense st;
      LightSense := v;
      BatterySenseSamples := BatterySenseSamples st;
      LightSenseSamples := samples;
      BatterySenseSampleIndex := BatterySenseSampleIndex st;
      LightSenseSampleIndex := if wrap then 0 else idx;
      BatterySenseAverageReady := BatterySenseAverageReady st;
      LightSenseAverageReady :=
        if wrap then 1 else LightSenseAverageReady st;
      LowBatteryWarningMessageSent := LowBatteryWarningMessageSent st;
      LowBatteryBtOffMessageSent := LowBatteryBtOffMessageSent st;
      LowBatteryWarningLevel := LowBatteryWarningLevel st;
      LowBatteryBtOffLevel := LowBatteryBtOffLevel st |},
   [READ_ADC12MEM LIGHT_SENSE; SENSE_DISABLE LIGHT_SENSE] ++ EndAdcCycle).

Definition LightSenseCycle (hw : adc_hw) (st : adc_state)
  : adc_state * list event :=
  let '(st', fin) := FinishLightSenseCycle hw st in
  (st', [xSemaphoreTake; SENSE_ENABLE LIGHT_SENSE;
         TaskDelayLpmDisable; vTaskDelay 10; TaskDelayLpmEnable]
          ++ StartLightSenseConversion
          ++ WaitForAdcBusy (busy_polls hw)
          ++ fin).

(** [for (i = 0; i < MAX_SAMPLES; i++) SampleTotal += Samples[i];] with the
    [unsigned int] accumulator reduced after every addition. *)
Definition SampleTotal (samples : list Z) : Z :=
  fold_left (fun total i => uint (total + samples !!! i))
            (seq 0 (Z.to_nat MAX_SAMPLES)) 0.

Definition ReadBatterySense (st : adc_state) : Z := BatterySense st.

Definition ReadBatterySenseAverage (st : adc_state) : Z :=
  if BatterySenseAverageReady st =? 0
  then BatterySense st
  else SampleTotal (BatterySenseSamples st) / MAX_SAMPLES.

Definition ReadLightSense (st : adc_state) : Z := LightSense st.

Definition ReadLightSenseAverage (st : adc_state) : Z :=
  if LightSenseAverageReady st =? 0
  then LightSense st
  else SampleTotal (LightSenseSamples st) / MAX_SAMPLES.

Definition ReadHardwareConfiguration (st : adc_state) : Z :=
  HardwareConfiguration st.

(** The two latch flags are the only fields LowBatteryMonitor writes. *)
Definition set_latches (warning btoff : Z) (st : adc_state) : adc_state :=
  {| HardwareConfiguration := HardwareConfiguration st;
     BatterySense := BatterySense st;
     LightSense := LightSense st;
     BatterySenseSamples := BatterySenseSamples st;
     LightSenseSamples := LightSenseSamples st;
     BatterySenseSampleIndex := BatterySenseSampleIndex st;
     LightSenseSampleIndex := LightSenseSampleIndex st;
     BatterySenseAverageReady := BatterySenseAverageReady st;
     LightSenseAverageReady := LightSenseAverageReady st;
     LowBatteryWarningMessageSent := warning;
     LowBatteryBtOffMessageSent := btoff;
     LowBatteryWarningLevel := LowBatteryWarningLevel st;
     LowBatteryBtOffLevel := LowBatteryBtOffLevel st |}.

(** The three messages of the BtOff branch : the host message built from
    [(unsigned char* )BatteryAverage], the display message, the vibration. *)
Definition BtOff_group (env : monitor_env) (BatteryAverage : Z) : list event :=
  [RouteMsg (UTL_BuildHstMsg (memory env) LowBatteryBtOffMsgHost BatteryAverage 2);
   RouteMsg (type_only LowBatteryBtOffMsg);
   RouteMsg (vibrate_msg 1 1)].

(** The three messages of the Warning branch. *)
Definition Warning_group (env : monitor_env) (BatteryAverage : Z) : list event :=
  [RouteMsg (UTL_BuildHstMsg (memory env) LowBatteryWarningMsgHost BatteryAverage 2);
   RouteMsg (type_only LowBatteryWarningMsg);
   RouteMsg (vibrate_msg 2 2)].

Definition LowBatteryMonitor (env : monitor_env) (st : adc_state)
  : adc_state * list event :=
  let BatteryAverage := ReadBatterySenseAverage st in
  let dbg :=
    if QueryBatteryDebug env
    then [PrintStringAndTwoDecimals "Batt Inst: " (BatterySense st)
                                    " Batt Avg: " BatteryAverage]
    else [] in
  if QueryPowerGood env then
    let resume :=
      if LowBatteryBtOffMessageSent st =? 0 then []
      else [RouteMsg (type_only TurnRadioOnMsg)] in
    (set_latches 0 0 st, dbg ++ resume)
  else
    let '(st1, log1) :=
      if (BatteryAverage <? LowBatteryBtOffLevel st)
         && (LowBatteryBtOffMessageSent st =? 0)
      then (set_latches (LowBatteryWarningMessageSent st) 1 st,
            BtOff_group env BatteryAverage)
      else (st, []) in
    let '(st2, log2) :=
      if (BatteryAverage <? LowBatteryWarningLevel st1)
         && (LowBatteryWarningMessageSent st1 =? 0)
      then (set_latches 1 (LowBatteryBtOffMessageSent st1) st1,
            Warning_group env BatteryAverage)
      else (st1, []) in
    (st2, dbg ++ log1 ++ log2).

Definition set_levels (warning btoff : Z) (st : adc_state) : adc_state :=
  {| HardwareConfiguration := HardwareConfiguration st;
     BatterySense := BatterySense st;
     LightSense := LightSense st;
     BatterySenseSamples := BatterySenseSamples st;
     LightSenseSamples := LightSenseSamples st;
     BatterySenseSampleIndex := BatterySenseSampleIndex st;
     LightSenseSampleIndex := LightSenseSampleIndex st;
     BatterySenseAverageReady := BatterySenseAverageReady st;
     LightSenseAverageReady := LightSenseAverageReady st;
     LowBatteryWarningMessageSent := LowBatteryWarningMessageSent st;
     LowBatteryBtOffMessageSent := LowBatteryBtOffMessageSent st;
     LowBatteryWarningLevel := warning;
     LowBatteryBtOffLevel := btoff |}.

(** [pData] is an address; [pData[0]] and [pData[1]] are the bytes there. *)
Definition SetBatteryLevels (mem : Z -> Z) (pData : Z)
    (st : adc_state) (nv : gmap Z Z) : adc_state * gmap Z Z :=
  let warning := uint (load8 mem pData * 100) in
  let btoff := uint (load8 mem (pData + 1) * 100) in
  (set_levels warning btoff st,
   OsalNvWrite NVID_LOW_BATTERY_BTOFF_LEVEL btoff
     (OsalNvWrite NVID_LOW_BATTERY_WARNING_LEVEL warning nv)).

Definition InitializeLowBatteryLevels (st : adc_state) (nv : gmap Z Z)
  : adc_state * gmap Z Z :=
  let '(warning, nv1) :=
    OsalNvItemInit NVID_LOW_BATTERY_WARNING_LEVEL
                   DEFAULT_LOW_BATTERY_WARNING_LEVEL nv in
  let '(btoff, nv2) :=
    OsalNvItemInit NVID_LOW_BATTERY_BTOFF_LEVEL
                   DEFAULT_LOW_BATTERY_BTOFF_LEVEL nv1 in
  (set_levels warning btoff st, nv2).

(** InitializeAdc : indices, instantaneous readings and ready latches are
    reset (the sample arrays are not), the thresholds are loaded, the
    latches cleared.  The writes to the ADC12 control registers are not
    kept : no function of the module reads them back.  The mutex it creates
    and gives is the free gate the task system below starts from. *)
Definition InitializeAdc (st : adc_state) (nv : gmap Z Z)
  : adc_state * gmap Z Z :=
  let st0 :=
    {| HardwareConfiguration := 0;
       BatterySense := 0;
       LightSense := 0;
       BatterySenseSamples := BatterySenseSamples st;
       LightSenseSamples := LightSenseSamples st;
       BatterySenseSampleIndex := 0;
       LightSenseSampleIndex := 0;
       BatterySenseAverageReady := 0;
       LightSenseAverageReady := 0;
       LowBatteryWarningMessageSent := LowBatteryWarningMessageSent st;
       LowBatteryBtOffMessageSent := LowBatteryBtOffMessageSent st;
       LowBatteryWarningLevel := LowBatteryWarningLevel st;
       LowBatteryBtOffLevel := LowBatteryBtOffLevel st |} in
  let '(st1, nv1) := InitializeLowBatteryLevels st0 nv in
  (set_latches 0 0 st1, nv1).

(* =================================================================== *)
(** *** Sequences of operations                                         *)
(* =================================================================== *)

(** One call into the module after InitializeAdc, with what it reads. *)
Inductive op :=
| OpHardwareCfgCycle (hw : adc_hw)
| OpBatterySenseCycle (hw : adc_hw) (cal : calibration)
| OpLightSenseCycle (hw : adc_hw)
| OpLowBatteryMonitor (env : monitor_env)
| OpSetBatteryLevels (mem : Z -> Z) (pData : Z).

Definition exec_op (o : op) (s : adc_state * gmap Z Z)
  : (adc_state * gmap Z Z) * list event :=
  match o with
  | OpHardwareCfgCycle hw =>
      let '(st, log) := HardwareCfgCycle hw s.1 in ((st, s.2), log)
  | OpBatterySenseCycle hw cal =>
      let '(st, log) := BatterySenseCycle hw cal s.1 in ((st, s.2), log)
  | OpLightSenseCycle hw =>
      let '(st, log) := LightSenseCycle hw s.1 in ((st, s.2), log)
  | OpLowBatteryMonitor env =>
      let '(st, log) := LowBatteryMonitor env s.1 in ((st, s.2), log)
  | OpSetBatteryLevels mem pData =>
      (SetBatteryLevels mem pData s.1 s.2, [])
  end.

(** The state after a sequence of calls. *)
Definition run_ops (ops : list op) (s : adc_state * gmap Z Z)
  : adc_state * gmap Z Z :=
  fold_left (fun s o => (exec_op o s).1) ops s.

(** A LowBatteryMonitor call that sees power-good. *)
Definition power_good_op (o : op) : bool :=
  match o with
  | OpLowBatteryMonitor env => QueryPowerGood env
  | _ => false
  end.

(** The state after a sequence of battery cycles. *)
Definition battery_cycles (ins : list (adc_hw * calibration))
    (st : adc_state) : adc_state :=
  fold_left (fun st i => (BatterySenseCycle i.1 i.2 st).1) ins st.

(** The state after a sequence of light cycles. *)
Definition light_cycles (ins : list adc_hw) (st : adc_state) : adc_state :=
  fold_left (fun st hw => (LightSenseCycle hw st).1) ins st.

(** The value one battery cycle publishes : what it leaves in
    [BatterySense] (it does not depend on the state the cycle starts in). *)
Definition battery_published (i : adc_hw * calibration) : Z :=
  BatterySense (FinishBatterySenseCycle i.1 i.2 boot_state).1.

Definition light_published (hw : adc_hw) : Z :=
  LightSense (FinishLightSenseCycle hw boot_state).1.

(* =================================================================== *)
(** *** Tasks sharing the converter                                     *)
(* =================================================================== *)

(** The log of one call of one of the three cycle functions. *)
Definition cycle_log (tr : list event) : Prop :=
  ∃ hw cal st,
    tr = (HardwareCfgCycle hw st).2
    ∨ tr = (BatterySenseCycle hw cal st).2
    ∨ tr = (LightSenseCycle hw st).2.

(** Modelled from the spec: the FreeRTOS mutex and scheduler (not part of
    the sources).  "acquire() blocks the calling execution context
    indefinitely until the lock is free"; "release() is unconditional".  A
    system is the holder of AdcHardwareMutex and, for every task inside a
    cycle function, the events that remain before it returns.  Tasks are
    interleaved at every event, which covers every placement of the
    cooperative suspension points. *)
Record sys := MkSys {
  holder : option nat;
  pending : gmap nat (list event)
}.

(** Modelled from the spec: the gate InitializeAdc leaves behind, free, with
    no task inside a cycle. *)
Definition sys_init : sys := MkSys None ∅.

(** Modelled from the spec: one step of one task [t].  It calls a cycle
    function, or executes the next event of the cycle it is in : a take
    needs the gate free and makes [t] the holder, a give frees the gate, any
    other event leaves the gate alone; a task whose log is exhausted returns
    from the cycle. *)
Inductive sys_step : sys → sys → Prop :=
| step_call t tr σ :
    pending σ !! t = None →
    cycle_log tr →
    sys_step σ (MkSys (holder σ) (<[t := tr]> (pending σ)))
| step_take t rest σ :
    pending σ !! t = Some (xSemaphoreTake :: rest) →
    holder σ = None →
    sys_step σ (MkSys (Some t) (<[t := rest]> (pending σ)))
| step_give t rest σ :
    pending σ !! t = Some (xSemaphoreGive :: rest) →
    sys_step σ (MkSys None (<[t := rest]> (pending σ)))
| step_event t e rest σ :
    pending σ !! t = Some (e :: rest) →
    e ≠ xSemaphoreTake →
    e ≠ xSemaphoreGive →
    sys_step σ (MkSys (holder σ) (<[t := rest]> (pending σ)))
| step_return t σ :
    pending σ !! t = Some [] →
    sys_step σ (MkSys (holder σ) (delete t (pending σ))).

(** The states tasks can bring the system to, starting from the free gate. *)
Inductive reachable : sys → Prop :=
| reachable_init : reachable sys_init
| reachable_step σ σ' : reachable σ → sys_step σ σ' → reachable σ'.

(** An access to the converter or to a sensor supply : every event of a
    cycle but the two semaphore calls. *)
Definition converter_access (e : event) : bool :=
  match e with
  | xSemaphoreTake | xSemaphoreGive => false
  | _ => true
  end.

(** Task [t] is inside the enable/convert/read/disable sequence : it has
    taken the semaphore and has not yet given it back. *)
Definition in_sequence (σ : sys) (t : nat) : Prop :=
  ∃ tr, pending σ !! t = Some tr ∧ xSemaphoreGive ∈ tr ∧ xSemaphoreTake ∉ tr.

End Adc.

(* ===================================================================== *)
(** ** Vocabulary of the properties                                       *)
(* ===================================================================== *)

(** The twelve-bit counts of the converter. *)
Definition counts : list Z := map Z.of_nat (seq 0 4096).

(** The closed forms of the spec, as rationals. *)
Definition light_formula (c : Z) : Z :=
  Qfloor (inject_Z c * 2.5 * 10000 / 4096)%Q.

Definition battery_formula (c : Z) : Z :=
  Qfloor (inject_Z c * ((24300 + 38300) * 2.5 * 1000) / (4095 * 24300))%Q.

(** The sum of a list of samples. *)
Fixpoint sumZ (l : list Z) : Z :=
  match l with
  | [] => 0
  | x :: rest => x + sumZ rest
  end.

(** The window of the last MAX_SAMPLES values, as it lies in the array when
    the write index is [MAX_SAMPLES - k]. *)
Definition rot (k : nat) (W : list Z) : list Z := drop k W ++ take k W.

(** The last MAX_SAMPLES values of the initial array followed by the
    published values, oldest first. *)
Definition window (init hist : list Z) : list Z :=
  drop (length hist) (init ++ hist).

(** What relates a ring buffer to the values published so far. *)
Definition ring_inv (init hist samples : list Z) (idx ready0 ready : Z) : Prop :=
  ∃ k q : nat,
    (k < 10)%nat
    ∧ length hist = (10 * q + k)%nat
    ∧ idx = Z.of_nat k
    ∧ samples = rot (10 - k) (window init hist)
    ∧ ready = if (10 <=? length hist)%nat then 1 else ready0.

(** The host-bound battery alerts of a log and their payloads. *)
Definition is_host_alert (ty : eMessageType) : bool :=
  match ty with
  | LowBatteryBtOffMsgHost | LowBatteryWarningMsgHost => true
  | _ => false
  end.

Definition host_payloads (log : list event) : list (list Z) :=
  map pPayload (List.filter (fun m => is_host_alert (Type_ m)) (routed log)).

(** The shape shared by the three cycle logs. *)
Definition gated (tr : list event) : Prop :=
  ∃ body, tr = xSemaphoreTake :: body ++ [xSemaphoreGive]
          ∧ Forall (fun e => converter_access e = true) body.

(** The gate is held by exactly the tasks between their take and their
    give. *)
Definition gate_inv (σ : sys) : Prop :=
  ∀ t, match pending σ !! t with
       | None => holder σ ≠ Some t
       | Some tr =>
           (gated tr ∧ holder σ ≠ Some t)
           ∨ ((∃ body, tr = body ++ [xSemaphoreGive]
                       ∧ Forall (fun e => converter_access e = true) body)
              ∧ holder σ = Some t)
           ∨ (tr = [] ∧ holder σ ≠ Some t)
       end.

(* ===================================================================== *)
(** ** Vocabulary of the further properties                               *)
(* ===================================================================== *)

(** A value that fits an [unsigned int] of [w] bits, and a flag that is 0
    or 1. *)
Definition in_uint (w x : Z) : Prop := 0 <= x < 2 ^ w.
Definition is_flag (x : Z) : Prop := x = 0 \/ x = 1.

(** Every variable of Adc.c holds a value of its C type, the two arrays
    have MAX_SAMPLES elements and the two write indices lie inside them. *)
Record state_ok (w : Z) (st : adc_state) : Prop := MkStateOk {
  ok_battery_len : length (BatterySenseSamples st) = Z.to_nat MAX_SAMPLES;
  ok_light_len : length (LightSenseSamples st) = Z.to_nat MAX_SAMPLES;
  ok_battery_idx : 0 <= BatterySenseSampleIndex st < MAX_SAMPLES;
  ok_light_idx : 0 <= LightSenseSampleIndex st < MAX_SAMPLES;
  ok_hwcfg : in_uint w (HardwareConfiguration st);
  ok_battery : in_uint w (BatterySense st);
  ok_light : in_uint w (LightSense st);
  ok_battery_samples : Forall (in_uint w) (BatterySenseSamples st);
  ok_light_samples : Forall (in_uint w) (LightSenseSamples st);
  ok_battery_ready : is_flag (BatterySenseAverageReady st);
  ok_light_ready : is_flag (LightSenseAverageReady st);
  ok_warning_sent : is_flag (LowBatteryWarningMessageSent st);
  ok_btoff_sent : is_flag (LowBatteryBtOffMessageSent st);
  ok_warning_level : in_uint w (LowBatteryWarningLevel st);
  ok_btoff_level : in_uint w (LowBatteryBtOffLevel st)
}.

(** The two threshold items, when stored, hold [unsigned int] values. *)
Definition store_ok (w idW idB : Z) (nv : gmap Z Z) : Prop :=
  ∀ id v, id = idW ∨ id = idB → nv !! id = Some v → in_uint w v.

(** The kinds of call. *)
Definition is_hardware_cfg_cycle (o : op) : bool :=
  match o with OpHardwareCfgCycle _ => true | _ => false end.
Definition is_battery_cycle (o : op) : bool :=
  match o with OpBatterySenseCycle _ _ => true | _ => false end.
Definition is_light_cycle (o : op) : bool :=
  match o with OpLightSenseCycle _ => true | _ => false end.
Definition is_monitor (o : op) : bool :=
  match o with OpLowBatteryMonitor _ => true | _ => false end.
Definition is_set_levels (o : op) : bool :=
  match o with OpSetBatteryLevels _ _ => true | _ => false end.

(** The inputs of the battery cycles and of the light cycles of a sequence
    of calls, in order. *)
Definition battery_inputs (ops : list op) : list (adc_hw * calibration) :=
  omap (fun o => match o with
                 | OpBatterySenseCycle hw cal => Some (hw, cal)
                 | _ => None
                 end) ops.

Definition light_inputs (ops : list op) : list adc_hw :=
  omap (fun o => match o with OpLightSenseCycle hw => Some hw | _ => None end)
       ops.

Definition hardware_cfg_inputs (ops : list op) : list adc_hw :=
  omap (fun o => match o with OpHardwareCfgCycle hw => Some hw | _ => None end)
       ops.

(** The channel an event names. *)
Definition event_channel (e : event) : option channel :=
  match e with
  | SENSE_ENABLE ch | SENSE_DISABLE ch | SET_START_ADDR ch | READ_ADC12MEM ch =>
      Some ch
  | _ => None
  end.

(** What a log does to the converter and to the sensor supply, starting and
    ending switched off : [Some] the final (converter on, sensor on) pair, or
    [None] when the log enables what is on, starts a conversion with the
    sensor off, or reads the result with the converter off. *)
Fixpoint power_run (adc_on sensor_on : bool) (log : list event)
  : option (bool * bool) :=
  match log with
  | [] => Some (adc_on, sensor_on)
  | SENSE_ENABLE _ :: rest =>
      if sensor_on then None else power_run adc_on true rest
  | SENSE_DISABLE _ :: rest => power_run adc_on false rest
  | ENABLE_ADC :: rest =>
      if adc_on || negb sensor_on then None else power_run true sensor_on rest
  | DISABLE_ADC :: rest => power_run false sensor_on rest
  | READ_ADC12MEM _ :: rest =>
      if adc_on then power_run adc_on sensor_on rest else None
  | _ :: rest => power_run adc_on sensor_on rest
  end.

(** What a log does to the low-power mode : [Some] whether
    TaskDelayLpmDisable is in force at the end, or [None] when the log
    disables what is disabled, enables what is enabled, or calls vTaskDelay
    with the low-power mode still enabled. *)
Fixpoint lpm_run (lpm_off : bool) (log : list event) : option bool :=
  match log with
  | [] => Some lpm_off
  | TaskDelayLpmDisable :: rest => if lpm_off then None else lpm_run true rest
  | TaskDelayLpmEnable :: rest => if lpm_off then lpm_run false rest else None
  | vTaskDelay _ :: rest => if lpm_off then lpm_run lpm_off rest else None
  | _ :: rest => lpm_run lpm_off rest
  end.

(** How many messages of a type a log routes. *)
Definition count_type (ty : eMessageType) (log : list event) : nat :=
  count_occ eMessageType_eq_dec (routed_types log) ty.

(** Everything a sequence of calls does to its environment, in order. *)
Fixpoint run_log (w idW idB : Z) (ops : list op) (s : adc_state * gmap Z Z)
  : list event :=
  match ops with
  | [] => []
  | o :: rest =>
      (exec_op w idW idB o s).2 ++ run_log w idW idB rest (exec_op w idW idB o s).1
  end.

(** What the battery functions read and write, and what the light functions
    read and write. *)
Definition battery_view (st : adc_state) : Z * list Z * Z * Z :=
  (BatterySense st, BatterySenseSamples st, BatterySenseSampleIndex st,
   BatterySenseAverageReady st).

Definition light_view (st : adc_state) : Z * list Z * Z * Z :=
  (LightSense st, LightSenseSamples st, LightSenseSampleIndex st,
   LightSenseAverageReady st).

(** A threshold change whose BtOff byte does not exceed its Warning byte
    (any other call qualifies). *)
Definition levels_ordered_op (o : op) : bool :=
  match o with
  | OpSetBatteryLevels mem pData => load8 mem (pData + 1) <=? load8 mem pData
  | _ => true
  end.

(** How many alerts of each kind the latches still allow before the next
    power-good evaluation. *)
Definition btoff_budget (st : adc_state) : nat :=
  if LowBatteryBtOffMessageSent st =? 0 then 1 else 0.

Definition warning_budget (st : adc_state) : nat :=
  if LowBatteryWarningMessageSent st =? 0 then 1 else 0.

(* ===================================================================== *)
(** * Properties                                                          *)
(* ===================================================================== *)

(** ** Machine arithmetic *)

Lemma uint_range w x : 0 <= w -> 0 <= uint w x < 2 ^ w.
Proof. intros Hw. unfold uint. apply Z.mod_pos_bound. apply Z.pow_pos_nonneg; lia. Qed.

Lemma pow2_16_le w : 16 <= w -> 65536 <= 2 ^ w.
Proof.
  intros Hw. change 65536 with (2 ^ 16). apply Z.pow_le_mono_r; lia.
Qed.

Lemma uint_small w x : 16 <= w -> 0 <= x < 65536 -> uint w x = x.
Proof.
  intros Hw Hx. unfold uint. apply Z.mod_small.
  pose proof (pow2_16_le w Hw). lia.
Qed.

Lemma uint_add_l w a b : uint w (uint w a + b) = uint w (a + b).
Proof. unfold uint. apply Zplus_mod_idemp_l. Qed.

(** ** The conversions on the twelve-bit range, by evaluation *)

Lemma counts_complete c : 0 <= c <= 4095 -> In c counts.
Proof.
  intros Hc. unfold counts. apply in_map_iff. exists (Z.to_nat c). split.
  - lia.
  - apply in_seq. lia.
Qed.

Lemma on_counts (P : Z -> bool) :
  forallb P counts = true -> forall c, 0 <= c <= 4095 -> P c = true.
Proof.
  intros Hall c Hc. rewrite forallb_forall in Hall. apply Hall.
  now apply counts_complete.
Qed.

Lemma light_conversion_binary64 c :
  0 <= c <= 4095 ->
  IEEE.counts_to_mv binary64_prec binary64_emax c = light_formula c
  /\ 0 <= light_formula c < 65536.
Proof.
  intros Hc.
  pose proof (on_counts
    (fun c => (IEEE.counts_to_mv binary64_prec binary64_emax c =? light_formula c)
              && (0 <=? light_formula c) && (light_formula c <? 65536))) as H.
  specialize (H ltac:(vm_compute; reflexivity) c Hc). cbv beta in H.
  apply andb_prop in H as [H H3]. apply andb_prop in H as [H1 H2].
  apply Z.eqb_eq in H1. apply Z.leb_le in H2. apply Z.ltb_lt in H3. auto.
Qed.

Lemma battery_conversion_binary64 c :
  0 <= c <= 4095 ->
  IEEE.battery_counts_to_mv binary64_prec binary64_emax c = battery_formula c
  /\ 0 <= battery_formula c <= 6440.
Proof.
  intros Hc.
  pose proof (on_counts
    (fun c => (IEEE.battery_counts_to_mv binary64_prec binary64_emax c
                 =? battery_formula c)
              && (0 <=? battery_formula c) && (battery_formula c <=? 6440))) as H.
  specialize (H ltac:(vm_compute; reflexivity) c Hc). cbv beta in H.
  apply andb_prop in H as [H H3]. apply andb_prop in H as [H1 H2].
  apply Z.eqb_eq in H1. apply Z.leb_le in H2. apply Z.leb_le in H3. auto.
Qed.

(** With a 32-bit [double] (an option of the tool chain) the light conversion
    is unchanged, the battery conversion is one above the closed form at two
    counts. *)
Remark light_conversion_binary32 c :
  0 <= c <= 4095 ->
  IEEE.counts_to_mv binary32_prec binary32_emax c = light_formula c.
Proof.
  intros Hc.
  pose proof (on_counts
    (fun c => IEEE.counts_to_mv binary32_prec binary32_emax c =? light_formula c)) as H.
  specialize (H ltac:(vm_compute; reflexivity) c Hc). now apply Z.eqb_eq in H.
Qed.

Remark battery_conversion_binary32 :
  filter (fun c => negb (IEEE.battery_counts_to_mv binary32_prec binary32_emax c
                           =? battery_formula c)) counts = [3183; 3293]
  /\ IEEE.battery_counts_to_mv binary32_prec binary32_emax 3183 = 5006
  /\ battery_formula 3183 = 5005.
Proof. vm_compute. auto. Qed.

Lemma AdcCountsToVoltage_formula w c :
  16 <= w -> 0 <= c <= 4095 -> AdcCountsToVoltage w c = light_formula c.
Proof.
  intros Hw Hc. unfold AdcCountsToVoltage. cbn [double_prec double_emax].
  destruct (light_conversion_binary64 c Hc) as [-> Hr]. now apply uint_small.
Qed.

Lemma AdcCountsToBatteryVoltage_formula w c :
  16 <= w -> 0 <= c <= 4095 -> AdcCountsToBatteryVoltage w c = battery_formula c.
Proof.
  intros Hw Hc. unfold AdcCountsToBatteryVoltage. cbn [double_prec double_emax].
  destruct (battery_conversion_binary64 c Hc) as [-> Hr]. apply uint_small; lia.
Qed.



(** C6.  For every raw count in 0..4095 the light / hardware-configuration
    conversion AdcCountsToVoltage returns floor(count * 2.5 * 10000 / 4096);
    count 4095 gives 24993, and count 0 gives 0 through both conversion
    functions, hence on the three channels.  ([double] is binary64; by
    [light_conversion_binary32] a 32-bit [double] gives the same values.) *)
Theorem C6_light_conversion_exact w c :
  16 <= w -> 0 <= c <= 4095 ->
  AdcCountsToVoltage w c = Qfloor (inject_Z c * 2.5 * 10000 / 4096)%Q
  /\ AdcCountsToVoltage w 4095 = 24993
  /\ AdcCountsToVoltage w 0 = 0
  /\ AdcCountsToBatteryVoltage w 0 = 0.
Proof.
  intros Hw Hc. split; [|split; [|split]].
  - now apply AdcCountsToVoltage_formula.
  - rewrite AdcCountsToVoltage_formula by lia. reflexivity.
  - rewrite AdcCountsToVoltage_formula by lia. reflexivity.
  - rewrite AdcCountsToBatteryVoltage_formula by lia. reflexivity.
Qed.

Lemma C6_light_conversion_exact_witness :
  16 <= 16 /\ 0 <= 2048 <= 4095
  /\ AdcCountsToVoltage 16 2048 = Qfloor (inject_Z 2048 * 2.5 * 10000 / 4096)%Q
  /\ AdcCountsToVoltage 16 4095 = 24993
  /\ AdcCountsToVoltage 16 0 = 0
  /\ AdcCountsToBatteryVoltage 16 0 = 0.
Proof.
  split; [lia|]. split; [lia|].
  apply (C6_light_conversion_exact 16 2048); lia.
Defined.

(** ** The battery cycle *)


Lemma battery_published_unfold (dbl : double_format) w hw cal :
  battery_published (double := dbl) w (hw, cal) =
    if QueryCalibrationValid cal
    then uint w (AdcCountsToBatteryVoltage (double := dbl) w (ADC12MEM hw)
                 + GetBatteryCalibrationValue cal)
    else AdcCountsToBatteryVoltage (double := dbl) w (ADC12MEM hw).
Proof. reflexivity. Qed.




(** ** The sample ring buffers *)

Lemma sumZ_app l1 l2 : sumZ (l1 ++ l2) = sumZ l1 + sumZ l2.
Proof. induction l1 as [|a l1 IH]; cbn; [reflexivity|]. rewrite IH. lia. Qed.

Lemma sumZ_rot k W : sumZ (rot k W) = sumZ W.
Proof.
  unfold rot. rewrite sumZ_app, Z.add_comm, <- sumZ_app.
  now rewrite take_drop.
Qed.

Lemma sumZ_nonneg l : Forall (fun x => 0 <= x) l -> 0 <= sumZ l.
Proof. induction 1; cbn; lia. Qed.

Lemma length_rot k W : length (rot k W) = length W.
Proof. unfold rot. rewrite <- (take_drop k W) at 3. rewrite !length_app. lia. Qed.

Lemma uint_idem w x : uint w (uint w x) = uint w x.
Proof. unfold uint. apply Zmod_mod. Qed.

Lemma fold_uint_sum w (l : list Z) (a : Z) :
  uint w (fold_left (fun total x => uint w (total + x)) l a) = uint w (a + sumZ l).
Proof.
  revert a. induction l as [|x l IH]; intros a; cbn [fold_left sumZ].
  - now rewrite Z.add_0_r.
  - rewrite IH, uint_add_l. f_equal. lia.
Qed.

Lemma SampleTotal_sum w (l : list Z) :
  length l = Z.to_nat MAX_SAMPLES -> SampleTotal w l = sumZ l mod 2 ^ w.
Proof.
  intros Hlen. change (Z.to_nat MAX_SAMPLES) with 10%nat in Hlen.
  do 10 (destruct l as [|? l]; [discriminate Hlen|]).
  destruct l; [|discriminate Hlen].
  match goal with |- _ = sumZ ?l mod _ =>
    change (sumZ l mod 2 ^ w) with (uint w (0 + sumZ l));
    rewrite <- (fold_uint_sum w l 0)
  end.
  cbn [fold_left]. now rewrite uint_idem.
Qed.

(** Writing at the index replaces the oldest value of the window. *)
Lemma rot_insert (W : list Z) (v : Z) (idx N : nat) :
  length W = N -> (idx < N)%nat ->
  <[idx := v]> (rot (N - idx) W) = rot (N - S idx) (drop 1 W ++ [v]).
Proof.
  intros HW Hidx. destruct W as [|w0 Wt]; [cbn in HW; lia|].
  cbn in HW. unfold rot.
  replace (N - idx)%nat with (S (N - S idx)) by lia.
  cbn [drop take]. rewrite drop_0.
  set (k := (N - S idx)%nat).
  assert (Hk : (k <= length Wt)%nat) by lia.
  rewrite drop_app_le, take_app_le by exact Hk.
  rewrite insert_app_r_alt by (rewrite length_drop; lia).
  replace (idx - length (drop k Wt))%nat with 0%nat
    by (rewrite length_drop; lia).
  cbn. now rewrite <- app_assoc.
Qed.

Lemma rot_full (W : list Z) (N : nat) : length W = N -> rot N W = rot 0 W.
Proof.
  intros HW. unfold rot. rewrite drop_ge, take_ge by lia.
  now rewrite drop_0, app_nil_r.
Qed.

Lemma length_window init hist : length (window init hist) = length init.
Proof. unfold window. rewrite length_drop, length_app. lia. Qed.

Lemma window_snoc init hist v :
  (0 < length init)%nat ->
  window init (hist ++ [v]) = drop 1 (window init hist) ++ [v].
Proof.
  intros Hinit. unfold window. rewrite length_app. cbn [length].
  rewrite app_assoc, drop_app_le by (rewrite length_app; lia).
  now rewrite <- (drop_drop _ 1 (length hist)).
Qed.

Lemma window_full init hist :
  (length init <= length hist)%nat ->
  window init hist = drop (length hist - length init) hist.
Proof.
  intros H. unfold window. now rewrite drop_app_ge by lia.
Qed.

Lemma ring_inv_init init ready0 :
  length init = 10%nat -> ring_inv init [] init 0 ready0 ready0.
Proof.
  intros Hinit. exists 0%nat, 0%nat. repeat split; try (cbn; lia).
  unfold window. cbn [length]. rewrite drop_0, app_nil_r.
  change (10 - 0)%nat with 10%nat. rewrite rot_full by exact Hinit.
  unfold rot. now rewrite drop_0, app_nil_r.
Qed.

Lemma ring_inv_step init hist samples idx ready0 ready v :
  length init = 10%nat ->
  ring_inv init hist samples idx ready0 ready ->
  ring_inv init (hist ++ [v])
    (<[Z.to_nat idx := v]> samples)
    (if MAX_SAMPLES <=? uchar (idx + 1) then 0 else uchar (idx + 1))
    ready0
    (if MAX_SAMPLES <=? uchar (idx + 1) then 1 else ready).
Proof.
  intros Hinit (k & q & Hk & Hlen & -> & -> & ->).
  assert (Hu : uchar (Z.of_nat k + 1) = Z.of_nat k + 1)
    by (unfold uchar; apply Z.mod_small; lia).
  rewrite Hu, Nat2Z.id. unfold MAX_SAMPLES.
  assert (Hins : <[k := v]> (rot (10 - k) (window init hist))
                 = rot (10 - S k) (window init (hist ++ [v]))).
  { rewrite window_snoc by lia. apply rot_insert; [|exact Hk].
    now rewrite length_window. }
  rewrite Hins.
  assert (Hlen' : length (hist ++ [v]) = S (length hist))
    by (rewrite length_app; cbn; lia).
  destruct (Z.leb_spec 10 (Z.of_nat k + 1)) as [Hwrap | Hno].
  - assert (k = 9)%nat by lia. subst k.
    exists 0%nat, (S q). repeat split; try lia.
    + change (10 - 9)%nat with 1%nat. change (10 - 0)%nat with 10%nat.
      change (1 - 1)%nat with 0%nat.
      symmetry. apply rot_full. now rewrite length_window.
    + rewrite Hlen'. destruct (Nat.leb_spec 10 (S (length hist))); [reflexivity|lia].
  - exists (S k), q. repeat split; try lia.
    rewrite Hlen'. 
    destruct (Nat.leb_spec 10 (length hist)), (Nat.leb_spec 10 (S (length hist)));
      try reflexivity; lia.
Qed.

(** When the latch is set the accumulated total is the sum of the window,
    reduced to the width of [unsigned int]. *)
Lemma ring_inv_total w init hist samples idx ready0 ready :
  length init = 10%nat ->
  ring_inv init hist samples idx ready0 ready ->
  SampleTotal w samples = sumZ (window init hist) mod 2 ^ w.
Proof.
  intros Hinit (k & q & _ & _ & _ & -> & _).
  rewrite SampleTotal_sum by (now rewrite length_rot, length_window).
  now rewrite sumZ_rot.
Qed.

(** ** InitializeAdc *)

Lemma InitializeLowBatteryLevels_frame idW idB st nv :
  let st' := (InitializeLowBatteryLevels idW idB st nv).1 in
  st' = set_levels (LowBatteryWarningLevel st') (LowBatteryBtOffLevel st') st.
Proof.
  unfold InitializeLowBatteryLevels, OsalNvItemInit.
  destruct (nv !! idW); cbn;
    match goal with |- context [?m !! idB] => destruct (m !! idB) end;
    reflexivity.
Qed.

Lemma InitializeAdc_fields idW idB st nv :
  let st' := (InitializeAdc idW idB st nv).1 in
  HardwareConfiguration st' = 0
  /\ BatterySense st' = 0 /\ LightSense st' = 0
  /\ BatterySenseSamples st' = BatterySenseSamples st
  /\ LightSenseSamples st' = LightSenseSamples st
  /\ BatterySenseSampleIndex st' = 0 /\ LightSenseSampleIndex st' = 0
  /\ BatterySenseAverageReady st' = 0 /\ LightSenseAverageReady st' = 0
  /\ LowBatteryWarningMessageSent st' = 0 /\ LowBatteryBtOffMessageSent st' = 0.
Proof.
  unfold InitializeAdc.
  match goal with |- context [InitializeLowBatteryLevels idW idB ?s nv] =>
    pose proof (InitializeLowBatteryLevels_frame idW idB s nv) as H;
    destruct (InitializeLowBatteryLevels idW idB s nv) as [st1 nv1]
  end.
  cbn in H. cbn. rewrite H. cbn. repeat split; reflexivity.
Qed.

(** ** Averages after a sequence of cycles *)

Lemma battery_cycles_snoc w ins i st :
  battery_cycles w (ins ++ [i]) st
  = (BatterySenseCycle w i.1 i.2 (battery_cycles w ins st)).1.
Proof. unfold battery_cycles. now rewrite fold_left_app. Qed.

Lemma light_cycles_snoc w ins hw st :
  light_cycles w (ins ++ [hw]) st
  = (LightSenseCycle w hw (light_cycles w ins st)).1.
Proof. unfold light_cycles. now rewrite fold_left_app. Qed.

Lemma battery_cycles_inv w ins st0 :
  length (BatterySenseSamples st0) = 10%nat ->
  BatterySenseSampleIndex st0 = 0 ->
  let st := battery_cycles w ins st0 in
  let hist := map (battery_published w) ins in
  ring_inv (BatterySenseSamples st0) hist (BatterySenseSamples st)
           (BatterySenseSampleIndex st)
           (BatterySenseAverageReady st0) (BatterySenseAverageReady st)
  /\ BatterySense st = default (BatterySense st0) (last hist).
Proof.
  intros Hlen Hidx. induction ins as [|i ins IH] using rev_ind; cbn zeta.
  - cbn. rewrite Hidx. split; [now apply ring_inv_init | reflexivity].
  - destruct IH as [IHr IHs]. rewrite battery_cycles_snoc, map_app.
    cbn [map]. split.
    + apply (ring_inv_step _ _ _ _ _ _ (battery_published w i) Hlen) in IHr.
      destruct i as [hw cal]. exact IHr.
    + rewrite last_snoc. destruct i as [hw cal]. reflexivity.
Qed.

Lemma light_cycles_inv w ins st0 :
  length (LightSenseSamples st0) = 10%nat ->
  LightSenseSampleIndex st0 = 0 ->
  let st := light_cycles w ins st0 in
  let hist := map (light_published w) ins in
  ring_inv (LightSenseSamples st0) hist (LightSenseSamples st)
           (LightSenseSampleIndex st)
           (LightSenseAverageReady st0) (LightSenseAverageReady st)
  /\ LightSense st = default (LightSense st0) (last hist).
Proof.
  intros Hlen Hidx. induction ins as [|hw ins IH] using rev_ind; cbn zeta.
  - cbn. rewrite Hidx. split; [now apply ring_inv_init | reflexivity].
  - destruct IH as [IHr IHs]. rewrite light_cycles_snoc, map_app.
    cbn [map]. split.
    + apply (ring_inv_step _ _ _ _ _ _ (light_published w hw) Hlen) in IHr.
      exact IHr.
    + rewrite last_snoc. reflexivity.
Qed.

(** No call after InitializeAdc clears a ready latch. *)
Lemma exec_op_ready w idW idB o s :
  (BatterySenseAverageReady s.1 <> 0 ->
   BatterySenseAverageReady (exec_op w idW idB o s).1.1 <> 0)
  /\ (LightSenseAverageReady s.1 <> 0 ->
      LightSenseAverageReady (exec_op w idW idB o s).1.1 <> 0).
Proof.
  destruct s as [st nv], o as [hw|hw cal|hw|env|mem p]; cbn; split; intros H;
    try exact H.
  - destruct (MAX_SAMPLES <=? _); [lia | exact H].
  - destruct (MAX_SAMPLES <=? _); [lia | exact H].
  - unfold LowBatteryMonitor.
    destruct (QueryPowerGood env); cbn; [exact H|].
    repeat (match goal with |- context [if ?b then _ else _] => destruct b end;
            cbn); exact H.
  - unfold LowBatteryMonitor.
    destruct (QueryPowerGood env); cbn; [exact H|].
    repeat (match goal with |- context [if ?b then _ else _] => destruct b end;
            cbn); exact H.
Qed.

Lemma run_ops_ready w idW idB ops s :
  (BatterySenseAverageReady s.1 <> 0 ->
   BatterySenseAverageReady (run_ops w idW idB ops s).1 <> 0)
  /\ (LightSenseAverageReady s.1 <> 0 ->
      LightSenseAverageReady (run_ops w idW idB ops s).1 <> 0).
Proof.
  revert s. induction ops as [|o ops IH]; intros s; [cbn; tauto|].
  cbn [run_ops fold_left]. specialize (IH (exec_op w idW idB o s).1).
  destruct (exec_op_ready w idW idB o s). unfold run_ops in IH. tauto.
Qed.

(** The average after InitializeAdc and a sequence of battery cycles. *)
Lemma battery_average_after_cycles w idW idB st0 nv ins :
  16 <= w ->
  length (BatterySenseSamples st0) = Z.to_nat MAX_SAMPLES ->
  let st := battery_cycles w ins (InitializeAdc idW idB st0 nv).1 in
  let hist := map (battery_published w) ins in
  let n := length ins in
  let last10 := drop (n - 10) hist in
  (n = 0%nat -> ReadBatterySenseAverage w st = 0)
  /\ ((0 < n < 10)%nat ->
      BatterySenseAverageReady st = 0
      /\ Some (ReadBatterySenseAverage w st) = last hist)
  /\ ((10 <= n)%nat ->
      BatterySenseAverageReady st = 1
      /\ length last10 = 10%nat
      /\ ReadBatterySenseAverage w st = (sumZ last10 mod 2 ^ w) / 10
      /\ (sumZ last10 < 2 ^ w ->
          ReadBatterySenseAverage w st = sumZ last10 / 10)).
Proof.
  intros Hw Hlen st hist n last10.
  change (Z.to_nat MAX_SAMPLES) with 10%nat in Hlen.
  destruct (InitializeAdc_fields idW idB st0 nv)
    as (_ & Hbs & _ & Hsam & _ & Hidx & _ & Hrdy & _).
  rewrite <- Hsam in Hlen.
  destruct (battery_cycles_inv w ins _ Hlen Hidx) as [Hinv Hsense].
  fold st hist in Hinv, Hsense. rewrite Hrdy in Hinv. rewrite Hbs in Hsense.
  pose proof (ring_inv_total w _ _ _ _ _ _ Hlen Hinv) as Htot.
  destruct Hinv as (k & q & Hk & Hn & _ & _ & Hready).
  unfold hist in Hn, Hready. rewrite length_map in Hn, Hready. fold n in Hn, Hready.
  assert (Hpub : Forall (fun x => 0 <= x) hist).
  { unfold hist. apply Forall_map, Forall_forall. intros [hw cal] _.
    rewrite battery_published_unfold.
    destruct (QueryCalibrationValid cal); [|unfold AdcCountsToBatteryVoltage];
      apply uint_range; lia. }
  repeat split.
  - intros Hn0. unfold ReadBatterySenseAverage.
    destruct (Nat.leb_spec 10 n); [lia|]. rewrite Hready. cbn.
    rewrite Hsense. destruct ins; [reflexivity | cbn in Hn0; lia].
  - destruct (Nat.leb_spec 10 n); [lia | exact Hready].
  - unfold ReadBatterySenseAverage.
    destruct (Nat.leb_spec 10 n); [lia|]. rewrite Hready. cbn.
    rewrite Hsense. destruct (last hist) eqn:Hl; [reflexivity|].
    apply last_None in Hl. unfold hist in Hl. destruct ins; [cbn in *; lia|discriminate].
  - destruct (Nat.leb_spec 10 n); [exact Hready | lia].
  - unfold last10, hist. rewrite length_drop, length_map. fold n. lia.
  - unfold ReadBatterySenseAverage.
    destruct (Nat.leb_spec 10 n); [|lia]. rewrite Hready. cbn [Z.eqb].
    rewrite Htot, window_full by (unfold hist; rewrite length_map; fold n; lia).
    unfold last10, hist, MAX_SAMPLES. rewrite length_map, Hlen. reflexivity.
  - intros Hsum. unfold ReadBatterySenseAverage.
    destruct (Nat.leb_spec 10 n); [|lia]. rewrite Hready. cbn [Z.eqb].
    rewrite Htot, window_full by (unfold hist; rewrite length_map; fold n; lia).
    unfold hist, MAX_SAMPLES. rewrite length_map, Hlen. fold n hist last10.
    rewrite Z.mod_small; [reflexivity|]. split; [|exact Hsum].
    apply sumZ_nonneg. unfold last10. now apply Forall_drop.
Qed.

(** C3 (amended).  After InitializeAdc and any sequence of battery cycles :
    before any cycle ReadBatterySenseAverage returns zero; while fewer than
    10 values have been published the ready latch is clear and it returns the
    most recent published value; once at least 10 values have been published
    the latch is set and it returns ((sum of the last 10 published values)
    mod 2^uint_bits) / 10, which is the truncated mean of exactly those 10
    values whenever their sum is below 2^uint_bits (after the 11th publish,
    of samples 2..11).  No later call of the module clears a set latch. *)
Theorem C3_battery_average w idW idB st0 nv ins :
  16 <= w ->
  length (BatterySenseSamples st0) = Z.to_nat MAX_SAMPLES ->
  let st := battery_cycles w ins (InitializeAdc idW idB st0 nv).1 in
  let hist := map (battery_published w) ins in
  let n := length ins in
  let last10 := drop (n - 10) hist in
  (n = 0%nat -> ReadBatterySenseAverage w st = 0)
  /\ ((0 < n < 10)%nat ->
      BatterySenseAverageReady st = 0
      /\ Some (ReadBatterySenseAverage w st) = last hist)
  /\ ((10 <= n)%nat ->
      BatterySenseAverageReady st = 1
      /\ length last10 = 10%nat
      /\ ReadBatterySenseAverage w st = (sumZ last10 mod 2 ^ w) / 10
      /\ (sumZ last10 < 2 ^ w ->
          ReadBatterySenseAverage w st = sumZ last10 / 10))
  /\ (forall ops nv',
        BatterySenseAverageReady st <> 0 ->
        BatterySenseAverageReady (run_ops w idW idB ops (st, nv')).1 <> 0).
Proof.
  intros Hw Hlen st hist n last10.
  destruct (battery_average_after_cycles w idW idB st0 nv ins Hw Hlen)
    as (H0 & H1 & H2).
  repeat split; try assumption.
  - now apply H1.
  - now apply H1.
  - now apply H2.
  - now apply H2.
  - now apply H2.
  - now apply H2.
  - intros ops nv' H.
    exact (proj1 (run_ops_ready w idW idB ops (st, nv')) H).
Qed.

(** Without calibration the accumulator cannot overflow : ten conversions of
    twelve-bit counts add up to at most 64400. *)
Corollary battery_average_exact_uncalibrated w idW idB st0 nv ins :
  16 <= w ->
  length (BatterySenseSamples st0) = Z.to_nat MAX_SAMPLES ->
  (10 <= length ins)%nat ->
  Forall (fun i => QueryCalibrationValid i.2 = false /\ 0 <= ADC12MEM i.1 <= 4095)
         (drop (length ins - 10) ins) ->
  ReadBatterySenseAverage w
    (battery_cycles w ins (InitializeAdc idW idB st0 nv).1)
  = sumZ (drop (length ins - 10) (map (battery_published w) ins)) / 10.
Proof.
  intros Hw Hlen Hn Hall.
  destruct (battery_average_after_cycles w idW idB st0 nv ins Hw Hlen)
    as (_ & _ & H).
  destruct (H Hn) as (_ & Hl10 & _ & Hexact). apply Hexact.
  pose proof (pow2_16_le w Hw).
  enough (sumZ (drop (length ins - 10) (map (battery_published w) ins))
          <= 6440 * Z.of_nat (length (drop (length ins - 10)
                                        (map (battery_published w) ins)))) by lia.
  rewrite skipn_map. clear Hl10 Hexact H.
  induction Hall as [|[hw cal] l [Hv Hc] _ IH]; cbn [map sumZ length]; [lia|].
  cbn in Hv, Hc. rewrite battery_published_unfold, Hv.
  rewrite AdcCountsToBatteryVoltage_formula by assumption.
  pose proof (battery_conversion_binary64 _ Hc) as [_ Hb]. lia.
Qed.

(** C3 as stated fails on the 16-bit target.  Ten cycles that each read the
    full-scale count 4095 with a valid calibration value of 200 publish 6640
    ten times; the total 66400 wraps to 864 and the average read back is 86,
    not the mean 6640.  Ten cycles that read count 0 (no battery) with a
    valid calibration value of -1 publish 65535 ten times and the average
    read back is 6552. *)
Lemma C3_counterexample :
  let start := (InitializeAdc 1 2 boot_state ∅).1 in
  let ins := replicate 10 (MkHw 4095 0, MkCal true 200) in
  let st := battery_cycles 16 ins start in
  let ins' := replicate 10 (MkHw 0 0, MkCal true (-1)) in
  let st' := battery_cycles 16 ins' start in
  (map (battery_published 16) ins = replicate 10 6640
   /\ BatterySenseSamples st = replicate 10 6640
   /\ BatterySenseAverageReady st = 1
   /\ ReadBatterySenseAverage 16 st = 86
   /\ sumZ (map (battery_published 16) ins) / 10 = 6640
   /\ ReadBatterySenseAverage 16 st
      <> sumZ (drop (length ins - 10) (map (battery_published 16) ins)) / 10)
  /\ (map (battery_published 16) ins' = replicate 10 65535
      /\ BatterySenseAverageReady st' = 1
      /\ ReadBatterySenseAverage 16 st' = 6552
      /\ ReadBatterySenseAverage 16 st'
         <> sumZ (drop (length ins' - 10) (map (battery_published 16) ins')) / 10).
Proof. vm_compute. repeat split; (reflexivity || discriminate). Qed.

Lemma C3_battery_average_witness :
  let ins := replicate 11 (MkHw 2000 0, MkCal false 0) in
  let st := battery_cycles 16 ins (InitializeAdc 1 2 boot_state ∅).1 in
  16 <= 16
  /\ length (BatterySenseSamples boot_state) = Z.to_nat MAX_SAMPLES
  /\ BatterySenseAverageReady st = 1
  /\ ReadBatterySenseAverage 16 st
     = (sumZ (drop 1 (map (battery_published 16) ins)) mod 2 ^ 16) / 10.
Proof.
  intros ins st.
  assert (H1 : 16 <= 16) by lia.
  assert (H2 : length (BatterySenseSamples boot_state) = Z.to_nat MAX_SAMPLES)
    by reflexivity.
  repeat (split; [assumption|]).
  destruct (C3_battery_average 16 1 2 boot_state ∅ ins H1 H2) as (_ & _ & H & _).
  destruct H as (Hr & _ & He & _); [cbn; lia|].
  split; [exact Hr | exact He].
Defined.

(** ** The light average *)

(** C9.  ReadLightSenseAverage adds the 10 stored samples into one
    [unsigned int] accumulator : with the ready latch set it returns
    ((sum of the 10 samples) mod 2^w) / 10, [w] the width of [unsigned int].
    On a 16-bit target there are sample sets reached from InitializeAdc by
    light cycles with twelve-bit counts (each sample at most 24993) whose sum
    exceeds 65535 and for which the value returned is not the arithmetic
    mean. *)
Theorem C9_light_average_wraps w st :
  length (LightSenseSamples st) = Z.to_nat MAX_SAMPLES ->
  LightSenseAverageReady st <> 0 ->
  ReadLightSenseAverage w st
    = fold_left (fun total x => (total + x) mod 2 ^ w) (LightSenseSamples st) 0
      / 10
  /\ ReadLightSenseAverage w st = (sumZ (LightSenseSamples st) mod 2 ^ w) / 10
  /\ (forall idW idB st0 nv,
        length (LightSenseSamples st0) = Z.to_nat MAX_SAMPLES ->
        exists ins : list adc_hw,
          let st16 := light_cycles 16 ins (InitializeAdc idW idB st0 nv).1 in
          Forall (fun hw => 0 <= ADC12MEM hw <= 4095) ins
          /\ Forall (fun v => 0 <= v <= 24993) (LightSenseSamples st16)
          /\ LightSenseAverageReady st16 = 1
          /\ 65535 < sumZ (LightSenseSamples st16)
          /\ ReadLightSenseAverage 16 st16
             <> sumZ (LightSenseSamples st16) / 10).
Proof.
  intros Hlen Hrdy.
  assert (Hsum : ReadLightSenseAverage w st
                 = (sumZ (LightSenseSamples st) mod 2 ^ w) / 10).
  { unfold ReadLightSenseAverage.
    destruct (Z.eqb_spec (LightSenseAverageReady st) 0); [contradiction|].
    now rewrite SampleTotal_sum. }
  split; [|split; [exact Hsum|]].
  - rewrite Hsum. f_equal.
    pose proof (fold_uint_sum w (LightSenseSamples st) 0) as Hf.
    unfold uint in Hf. rewrite Z.add_0_l in Hf. rewrite <- Hf.
    change (Z.to_nat MAX_SAMPLES) with 10%nat in Hlen.
    destruct (LightSenseSamples st) as [|a l] using rev_ind; [discriminate|].
    rewrite fold_left_app. cbn [fold_left]. now rewrite Zmod_mod.
  - intros idW idB st0 nv Hlen0.
    exists (replicate 10 (MkHw 4095 0)). cbn zeta.
    destruct (InitializeAdc_fields idW idB st0 nv)
      as (_ & _ & _ & _ & Hsam & _ & Hidx & _ & Hr0 & _).
    change (Z.to_nat MAX_SAMPLES) with 10%nat in Hlen0.
    rewrite <- Hsam in Hlen0.
    destruct (light_cycles_inv 16 (replicate 10 (MkHw 4095 0)) _ Hlen0 Hidx)
      as [(k & q & Hk & Hn & _ & Hs & Hready) _].
    set (st16 := light_cycles 16 _ _) in *.
    cbn in Hn. assert (k = 0%nat) by lia. subst k.
    change (10 - 0)%nat with 10%nat in Hs.
    rewrite rot_full in Hs by now rewrite length_window.
    unfold rot in Hs. rewrite drop_0 in Hs. cbn [take] in Hs.
    rewrite app_nil_r, window_full in Hs by (cbn; lia).
    rewrite Hlen0 in Hs.
    assert (Hs' : LightSenseSamples st16 = replicate 10 24993)
      by (rewrite Hs; vm_compute; reflexivity).
    assert (Hr : LightSenseAverageReady st16 = 1) by exact Hready.
    split; [|split; [|split; [exact Hr|]]].
    + repeat constructor; cbn; lia.
    + rewrite Hs'. repeat constructor; lia.
    + unfold ReadLightSenseAverage. rewrite Hr. cbn [Z.eqb].
      rewrite SampleTotal_sum by (rewrite Hs'; reflexivity).
      rewrite Hs'. vm_compute. split; [reflexivity | discriminate].
Qed.

Lemma C9_light_average_wraps_witness :
  let st := light_cycles 16 (replicate 10 (MkHw 1200 0))
              (InitializeAdc 1 2 boot_state ∅).1 in
  length (LightSenseSamples st) = Z.to_nat MAX_SAMPLES
  /\ LightSenseAverageReady st <> 0
  /\ ReadLightSenseAverage 16 st
     = (sumZ (LightSenseSamples st) mod 2 ^ 16) / 10.
Proof.
  intros st.
  assert (H1 : length (LightSenseSamples st) = Z.to_nat MAX_SAMPLES)
    by (vm_compute; reflexivity).
  assert (H2 : LightSenseAverageReady st <> 0) by (vm_compute; discriminate).
  split; [exact H1|]. split; [exact H2|].
  exact (proj1 (proj2 (C9_light_average_wraps 16 st H1 H2))).
Defined.

(** ** LowBatteryMonitor *)

Lemma routed_app l1 l2 : routed (l1 ++ l2) = routed l1 ++ routed l2.
Proof.
  induction l1 as [|e l1 IH]; [reflexivity|].
  destruct e; cbn; now rewrite ?IH.
Qed.

Lemma routed_debug w env st :
  routed (if QueryBatteryDebug env
          then [PrintStringAndTwoDecimals "Batt Inst: " (BatterySense st)
                  " Batt Avg: " (ReadBatterySenseAverage w st)]
          else []) = [].
Proof. now destruct (QueryBatteryDebug env). Qed.

(** An evaluation that sees power-good. *)
Lemma LowBatteryMonitor_power_good w env st :
  QueryPowerGood env = true ->
  let r := LowBatteryMonitor w env st in
  r.1 = set_latches 0 0 st
  /\ routed r.2 = if LowBatteryBtOffMessageSent st =? 0 then []
                  else [type_only TurnRadioOnMsg].
Proof.
  intros Hpg. unfold LowBatteryMonitor. rewrite Hpg. cbn [fst snd].
  split; [reflexivity|]. rewrite routed_app, routed_debug.
  now destruct (LowBatteryBtOffMessageSent st =? 0).
Qed.

(** An evaluation without power-good that finds the BtOff latch set. *)
Lemma LowBatteryMonitor_latched w env st :
  QueryPowerGood env = false ->
  LowBatteryBtOffMessageSent st <> 0 ->
  let r := LowBatteryMonitor w env st in
  LowBatteryBtOffMessageSent r.1 = LowBatteryBtOffMessageSent st
  /\ (routed r.2 = []
      \/ routed r.2 = routed (Warning_group env (ReadBatterySenseAverage w st))).
Proof.
  intros Hpg Hset. unfold LowBatteryMonitor. rewrite Hpg.
  destruct (Z.eqb_spec (LowBatteryBtOffMessageSent st) 0) as [|_]; [contradiction|].
  rewrite andb_false_r.
  destruct (_ && _); cbn [fst snd]; rewrite !routed_app, routed_debug.
  - split; [reflexivity | now right].
  - split; [reflexivity | now left].
Qed.

(** Only a LowBatteryMonitor call that sees power-good clears the latch. *)
Lemma exec_op_keeps_latch w idW idB o s :
  power_good_op o = false ->
  LowBatteryBtOffMessageSent s.1 <> 0 ->
  LowBatteryBtOffMessageSent (exec_op w idW idB o s).1.1 <> 0.
Proof.
  destruct s as [st nv], o as [hw|hw cal|hw|env|mem p]; cbn [power_good_op];
    intros Hpg Hset; try exact Hset.
  cbn [exec_op fst snd] in *.
  destruct (LowBatteryMonitor_latched w env st Hpg Hset) as [Hl _].
  destruct (LowBatteryMonitor w env st). cbn in *. congruence.
Qed.

Lemma run_ops_keeps_latch w idW idB ops s :
  Forall (fun o => power_good_op o = false) ops ->
  LowBatteryBtOffMessageSent s.1 <> 0 ->
  LowBatteryBtOffMessageSent (run_ops w idW idB ops s).1 <> 0.
Proof.
  intros Hall. revert s. induction Hall as [|o ops Ho _ IH]; intros s Hset;
    [exact Hset|].
  cbn [run_ops fold_left]. apply IH. now apply exec_op_keeps_latch.
Qed.

(** C1 (amended).  In every sequence of calls into the module : once an
    evaluation of LowBatteryMonitor has left BtOffSent set, every later
    evaluation with power-good false, with no evaluation that saw power-good
    true in between, emits no BtOff notification (neither the host message,
    nor the display message, nor the short vibration), whatever the average
    and the thresholds are then, and leaves the latch set.  An evaluation
    with power-good true clears both latch flags and routes exactly one
    TurnRadioOn message if BtOffSent was set at its start, and no message at
    all if it was not. *)
Theorem C1_btoff_latch_hysteresis w idW idB pre mid s0 env_i env_j :
  let s1 := (exec_op w idW idB (OpLowBatteryMonitor env_i)
               (run_ops w idW idB pre s0)).1 in
  LowBatteryBtOffMessageSent s1.1 <> 0 ->
  Forall (fun o => power_good_op o = false) mid ->
  QueryPowerGood env_j = false ->
  let r := LowBatteryMonitor w env_j (run_ops w idW idB mid s1).1 in
  ((LowBatteryBtOffMsgHost ∉ routed_types r.2)
   /\ (LowBatteryBtOffMsg ∉ routed_types r.2)
   /\ (vibrate_msg 1 1 ∉ routed r.2)
   /\ LowBatteryBtOffMessageSent r.1 <> 0)
  /\ (forall env st,
        QueryPowerGood env = true ->
        let r := LowBatteryMonitor w env st in
        LowBatteryWarningMessageSent r.1 = 0
        /\ LowBatteryBtOffMessageSent r.1 = 0
        /\ routed r.2 = if LowBatteryBtOffMessageSent st =? 0 then []
                        else [type_only TurnRadioOnMsg]).
Proof.
  intros s1 Hset Hmid Hpg r. split.
  - pose proof (run_ops_keeps_latch w idW idB mid s1 Hmid Hset) as Hset'.
    destruct (LowBatteryMonitor_latched w env_j _ Hpg Hset') as [Hl Hr].
    fold r in Hl, Hr. unfold routed_types.
    destruct Hr as [-> | ->]; cbn; rewrite Hl;
      repeat split; try exact Hset'; intros Hin;
      repeat (apply elem_of_cons in Hin as [Hin | Hin]; [discriminate Hin|]);
      now apply elem_of_nil in Hin.
  - intros env st Htrue r'.
    destruct (LowBatteryMonitor_power_good w env st Htrue) as [Hst Hlog].
    fold r' in Hst, Hlog. rewrite Hst. repeat split. exact Hlog.
Qed.

(** C1 as stated fails : the evaluation at step 1 sets BtOffSent, the
    evaluation at step 2 sees power-good and clears it, and the evaluation at
    step 3, a later evaluation with power-good false and the same low
    average, emits the BtOff notification again. *)
Lemma C1_counterexample :
  let env_off := MkEnv false false (fun _ => 0) in
  let env_on := MkEnv false true (fun _ => 0) in
  let s0 := (BatterySenseCycle 16 (MkHw 2000 0) (MkCal false 0)
               (InitializeAdc 1 2 boot_state ∅).1).1 in
  let e1 := LowBatteryMonitor 16 env_off s0 in
  let e2 := LowBatteryMonitor 16 env_on e1.1 in
  let e3 := LowBatteryMonitor 16 env_off e2.1 in
  ReadBatterySenseAverage 16 s0 = 3145
  /\ LowBatteryBtOffLevel s0 = 3300
  /\ LowBatteryBtOffMessageSent s0 = 0
  /\ LowBatteryBtOffMessageSent e1.1 = 1
  /\ QueryPowerGood env_off = false
  /\ QueryPowerGood env_on = true
  /\ routed_types e2.2 = [TurnRadioOnMsg]
  /\ routed_types e3.2 =
       [LowBatteryBtOffMsgHost; LowBatteryBtOffMsg; SetVibrateMode;
        LowBatteryWarningMsgHost; LowBatteryWarningMsg; SetVibrateMode]
  /\ (LowBatteryBtOffMsgHost ∈ routed_types e3.2).
Proof.
  vm_compute. repeat split; try reflexivity. constructor.
Qed.

(** The evaluation that crosses both thresholds with both latches clear. *)
Lemma LowBatteryMonitor_both_crossed w env st :
  QueryPowerGood env = false ->
  LowBatteryWarningMessageSent st = 0 ->
  LowBatteryBtOffMessageSent st = 0 ->
  ReadBatterySenseAverage w st < LowBatteryBtOffLevel st ->
  ReadBatterySenseAverage w st < LowBatteryWarningLevel st ->
  let avg := ReadBatterySenseAverage w st in
  let r := LowBatteryMonitor w env st in
  r.1 = set_latches 1 1 st
  /\ routed r.2 = routed (BtOff_group env avg) ++ routed (Warning_group env avg).
Proof.
  intros Hpg Hw0 Hb0 Hb Hwl avg r.
  subst r. unfold LowBatteryMonitor. fold avg. rewrite Hpg, Hb0, Hw0.
  apply Z.ltb_lt in Hb, Hwl. fold avg in Hb, Hwl. rewrite Hb.
  cbn [andb Z.eqb set_latches LowBatteryWarningLevel
       LowBatteryWarningMessageSent LowBatteryBtOffMessageSent].
  rewrite Hwl. cbn [fst snd andb]. split; [reflexivity|].
  unfold avg. now rewrite !routed_app, routed_debug.
Qed.

(** C2.  One evaluation with power-good false, both latch flags clear and
    the average strictly below both thresholds routes exactly the three
    messages of the BtOff group (host message, display message, vibration of
    short ticks) followed by exactly the three messages of the Warning group
    (host message, display message, vibration of longer ticks), in the order
    in which the two checks are made, and sets both latches. *)
Theorem C2_btoff_before_warning w env st :
  QueryPowerGood env = false ->
  LowBatteryWarningMessageSent st = 0 ->
  LowBatteryBtOffMessageSent st = 0 ->
  ReadBatterySenseAverage w st < LowBatteryBtOffLevel st ->
  ReadBatterySenseAverage w st < LowBatteryWarningLevel st ->
  let avg := ReadBatterySenseAverage w st in
  let r := LowBatteryMonitor w env st in
  routed r.2 =
    [UTL_BuildHstMsg (memory env) LowBatteryBtOffMsgHost avg 2;
     type_only LowBatteryBtOffMsg;
     vibrate_msg 1 1;
     UTL_BuildHstMsg (memory env) LowBatteryWarningMsgHost avg 2;
     type_only LowBatteryWarningMsg;
     vibrate_msg 2 2]
  /\ routed_types r.2 =
       [LowBatteryBtOffMsgHost; LowBatteryBtOffMsg; SetVibrateMode;
        LowBatteryWarningMsgHost; LowBatteryWarningMsg; SetVibrateMode]
  /\ LowBatteryBtOffMessageSent r.1 = 1
  /\ LowBatteryWarningMessageSent r.1 = 1.
Proof.
  intros Hpg Hw0 Hb0 Hb Hwl avg r.
  destruct (LowBatteryMonitor_both_crossed w env st Hpg Hw0 Hb0 Hb Hwl)
    as [Hst Hlog].
  fold avg r in Hst, Hlog. unfold routed_types. rewrite Hlog, Hst.
  repeat split; reflexivity.
Qed.

Lemma C2_btoff_before_warning_witness :
  let env := MkEnv true false (fun _ => 0) in
  let st := (BatterySenseCycle 16 (MkHw 2000 0) (MkCal false 0)
               (InitializeAdc 1 2 boot_state ∅).1).1 in
  QueryPowerGood env = false
  /\ LowBatteryWarningMessageSent st = 0
  /\ LowBatteryBtOffMessageSent st = 0
  /\ ReadBatterySenseAverage 16 st < LowBatteryBtOffLevel st
  /\ ReadBatterySenseAverage 16 st < LowBatteryWarningLevel st
  /\ routed_types (LowBatteryMonitor 16 env st).2 =
       [LowBatteryBtOffMsgHost; LowBatteryBtOffMsg; SetVibrateMode;
        LowBatteryWarningMsgHost; LowBatteryWarningMsg; SetVibrateMode].
Proof.
  intros env st.
  assert (H1 : QueryPowerGood env = false) by reflexivity.
  assert (H2 : LowBatteryWarningMessageSent st = 0) by (vm_compute; reflexivity).
  assert (H3 : LowBatteryBtOffMessageSent st = 0) by (vm_compute; reflexivity).
  assert (H4 : ReadBatterySenseAverage 16 st < LowBatteryBtOffLevel st)
    by (vm_compute; reflexivity).
  assert (H5 : ReadBatterySenseAverage 16 st < LowBatteryWarningLevel st)
    by (vm_compute; reflexivity).
  repeat (split; [assumption|]).
  exact (proj1 (proj2 (C2_btoff_before_warning 16 env st H1 H2 H3 H4 H5))).
Defined.

Lemma C1_btoff_latch_hysteresis_witness :
  let env_off := MkEnv false false (fun _ => 0) in
  let s0 := InitializeAdc 1 2 boot_state ∅ in
  let pre := [OpBatterySenseCycle (MkHw 2000 0) (MkCal false 0)] in
  let mid := [OpBatterySenseCycle (MkHw 1900 0) (MkCal false 0);
              OpLowBatteryMonitor env_off] in
  let s1 := (exec_op 16 1 2 (OpLowBatteryMonitor env_off)
               (run_ops 16 1 2 pre s0)).1 in
  let r := LowBatteryMonitor 16 env_off (run_ops 16 1 2 mid s1).1 in
  LowBatteryBtOffMessageSent s1.1 <> 0
  /\ Forall (fun o => power_good_op o = false) mid
  /\ QueryPowerGood env_off = false
  /\ (LowBatteryBtOffMsgHost ∉ routed_types r.2)
  /\ LowBatteryBtOffMessageSent r.1 <> 0.
Proof.
  intros env_off s0 pre mid s1 r.
  assert (H1 : LowBatteryBtOffMessageSent s1.1 <> 0) by (vm_compute; discriminate).
  assert (H2 : Forall (fun o => power_good_op o = false) mid)
    by (repeat constructor).
  assert (H3 : QueryPowerGood env_off = false) by reflexivity.
  repeat (split; [assumption|]).
  destruct (C1_btoff_latch_hysteresis 16 1 2 pre mid s0 env_off env_off H1 H2 H3)
    as [(Ha & _ & _ & Hd) _].
  split; [exact Ha | exact Hd].
Defined.

(** ** The payload of the two host messages *)

(** What the code puts in the payload : the two bytes stored at the address
    whose value is the average. *)
Lemma host_payload_is_memory_at_average w env st :
  QueryPowerGood env = false ->
  LowBatteryWarningMessageSent st = 0 ->
  LowBatteryBtOffMessageSent st = 0 ->
  ReadBatterySenseAverage w st < LowBatteryBtOffLevel st ->
  ReadBatterySenseAverage w st < LowBatteryWarningLevel st ->
  let avg := ReadBatterySenseAverage w st in
  host_payloads (LowBatteryMonitor w env st).2
  = [[load8 (memory env) avg; load8 (memory env) (avg + 1)];
     [load8 (memory env) avg; load8 (memory env) (avg + 1)]].
Proof.
  intros Hpg Hw0 Hb0 Hb Hwl avg.
  unfold host_payloads.
  destruct (LowBatteryMonitor_both_crossed w env st Hpg Hw0 Hb0 Hb Hwl) as [_ ->].
  fold avg. cbn. now rewrite Z.add_0_r.
Qed.

(** C8, the code at a concrete input.  With the average 3145 and zeros stored
    at the addresses 3145 and 3146, both host messages carry the payload
    [0; 0]; the little-endian encoding of 3145 is [73; 12]. *)
Lemma C8_payload_is_not_the_encoded_average :
  let env := MkEnv false false (fun _ => 0) in
  let st := (BatterySenseCycle 16 (MkHw 2000 0) (MkCal false 0)
               (InitializeAdc 1 2 boot_state ∅).1).1 in
  ReadBatterySenseAverage 16 st = 3145
  /\ le16 3145 = [73; 12]
  /\ routed_types (LowBatteryMonitor 16 env st).2 =
       [LowBatteryBtOffMsgHost; LowBatteryBtOffMsg; SetVibrateMode;
        LowBatteryWarningMsgHost; LowBatteryWarningMsg; SetVibrateMode]
  /\ host_payloads (LowBatteryMonitor 16 env st).2 = [[0; 0]; [0; 0]].
Proof. vm_compute. repeat split; reflexivity. Qed.

(** ** The thresholds *)

Lemma load8_byte mem p b : mem p = b -> 0 <= b <= 255 -> load8 mem p = b.
Proof. intros <- Hb. unfold load8, uchar. apply Z.mod_small. lia. Qed.

Lemma SetBatteryLevels_unfold w idW idB mem p st nv :
  SetBatteryLevels w idW idB mem p st nv =
    (set_levels (uint w (load8 mem p * 100)) (uint w (load8 mem (p + 1) * 100)) st,
     <[idB := uint w (load8 mem (p + 1) * 100)]>
       (<[idW := uint w (load8 mem p * 100)]> nv)).
Proof. reflexivity. Qed.

Lemma InitializeLowBatteryLevels_stored idW idB st (nv : gmap Z Z) a b :
  nv !! idW = Some a -> nv !! idB = Some b ->
  InitializeLowBatteryLevels idW idB st nv = (set_levels a b st, nv).
Proof.
  intros Ha Hb. unfold InitializeLowBatteryLevels, OsalNvItemInit.
  now rewrite Ha, Hb.
Qed.

Lemma InitializeLowBatteryLevels_absent idW idB st (nv : gmap Z Z) :
  idW <> idB ->
  nv !! idW = None -> nv !! idB = None ->
  InitializeLowBatteryLevels idW idB st nv =
    (set_levels DEFAULT_LOW_BATTERY_WARNING_LEVEL DEFAULT_LOW_BATTERY_BTOFF_LEVEL st,
     <[idB := DEFAULT_LOW_BATTERY_BTOFF_LEVEL]>
       (<[idW := DEFAULT_LOW_BATTERY_WARNING_LEVEL]> nv)).
Proof.
  intros Hne Ha Hb. unfold InitializeLowBatteryLevels, OsalNvItemInit.
  rewrite Ha. rewrite lookup_insert_ne by exact Hne. now rewrite Hb.
Qed.

(** C7.  For all bytes [wb] and [bb] stored at [pData[0]] and [pData[1]],
    SetBatteryLevels sets the thresholds in memory to exactly wb*100 and
    bb*100 and stores them, so that InitializeLowBatteryLevels run afterwards
    on any state (a fresh load) yields wb*100 and bb*100 and leaves the store
    as it is; run on a store that holds neither item it yields the defaults
    3500 (Warning) and 3300 (BtOff) and writes them to the store. *)
Theorem C7_threshold_round_trip w idW idB mem p wb bb st nv st_fresh :
  16 <= w -> idW <> idB ->
  mem p = wb -> mem (p + 1) = bb -> 0 <= wb <= 255 -> 0 <= bb <= 255 ->
  let set := SetBatteryLevels w idW idB mem p st nv in
  let load := InitializeLowBatteryLevels idW idB st_fresh set.2 in
  (LowBatteryWarningLevel set.1 = wb * 100
   /\ LowBatteryBtOffLevel set.1 = bb * 100
   /\ set.2 !! idW = Some (wb * 100)
   /\ set.2 !! idB = Some (bb * 100))
  /\ (LowBatteryWarningLevel load.1 = wb * 100
      /\ LowBatteryBtOffLevel load.1 = bb * 100
      /\ load.2 = set.2)
  /\ (forall st0 (nv0 : gmap Z Z),
        nv0 !! idW = None -> nv0 !! idB = None ->
        let load0 := InitializeLowBatteryLevels idW idB st0 nv0 in
        LowBatteryWarningLevel load0.1 = 3500
        /\ LowBatteryBtOffLevel load0.1 = 3300
        /\ load0.2 !! idW = Some 3500
        /\ load0.2 !! idB = Some 3300).
Proof.
  intros Hw Hne Hwb Hbb Hrw Hrb set load.
  assert (Hset : set = (set_levels (wb * 100) (bb * 100) st,
                        <[idB := bb * 100]> (<[idW := wb * 100]> nv))).
  { subst set. rewrite SetBatteryLevels_unfold.
    rewrite (load8_byte mem p wb), (load8_byte mem (p + 1) bb) by assumption.
    rewrite !uint_small by lia. reflexivity. }
  assert (HW : set.2 !! idW = Some (wb * 100)).
  { rewrite Hset. cbn [snd].
    rewrite lookup_insert_ne by congruence. apply lookup_insert_eq. }
  assert (HB : set.2 !! idB = Some (bb * 100)).
  { rewrite Hset. cbn [snd]. apply lookup_insert_eq. }
  split; [|split].
  - rewrite Hset at 1 2. cbn. auto.
  - subst load.
    rewrite (InitializeLowBatteryLevels_stored _ _ _ _ _ _ HW HB). cbn. auto.
  - intros st0 nv0 H0W H0B load0. subst load0.
    rewrite InitializeLowBatteryLevels_absent by assumption. cbn [fst snd].
    repeat split.
    + rewrite lookup_insert_ne by congruence. apply lookup_insert_eq.
    + apply lookup_insert_eq.
Qed.

Lemma C7_threshold_round_trip_witness :
  let mem := fun a : Z => if a =? 100 then 36 else 34 in
  let set := SetBatteryLevels 16 1 2 mem 100 boot_state ∅ in
  let load := InitializeLowBatteryLevels 1 2 boot_state set.2 in
  16 <= 16 /\ 1 <> 2
  /\ mem 100 = 36 /\ mem (100 + 1) = 34 /\ 0 <= 36 <= 255 /\ 0 <= 34 <= 255
  /\ LowBatteryWarningLevel load.1 = 36 * 100
  /\ LowBatteryBtOffLevel load.1 = 34 * 100.
Proof.
  intros mem set load.
  assert (H1 : 16 <= 16) by lia.
  assert (H2 : 1 <> 2) by lia.
  assert (H3 : mem 100 = 36) by reflexivity.
  assert (H4 : mem (100 + 1) = 34) by reflexivity.
  assert (H5 : 0 <= 36 <= 255) by lia.
  assert (H6 : 0 <= 34 <= 255) by lia.
  repeat (split; [assumption|]).
  destruct (C7_threshold_round_trip 16 1 2 mem 100 36 34 boot_state ∅ boot_state
              H1 H2 H3 H4 H5 H6) as (_ & (Ha & Hb & _) & _).
  split; [exact Ha | exact Hb].
Defined.

(** C10.  SetBatteryLevels changes the two thresholds and the two threshold
    items of the store and nothing else : the latch flags, both sample
    arrays, their write indices and ready latches, the three instantaneous
    readings and every other item of the store are as before. *)
Theorem C10_set_levels_frame w idW idB mem p st nv :
  let set := SetBatteryLevels w idW idB mem p st nv in
  LowBatteryWarningMessageSent set.1 = LowBatteryWarningMessageSent st
  /\ LowBatteryBtOffMessageSent set.1 = LowBatteryBtOffMessageSent st
  /\ BatterySenseSamples set.1 = BatterySenseSamples st
  /\ LightSenseSamples set.1 = LightSenseSamples st
  /\ BatterySenseSampleIndex set.1 = BatterySenseSampleIndex st
  /\ LightSenseSampleIndex set.1 = LightSenseSampleIndex st
  /\ BatterySenseAverageReady set.1 = BatterySenseAverageReady st
  /\ LightSenseAverageReady set.1 = LightSenseAverageReady st
  /\ BatterySense set.1 = BatterySense st
  /\ LightSense set.1 = LightSense st
  /\ HardwareConfiguration set.1 = HardwareConfiguration st
  /\ (forall id, id <> idW -> id <> idB -> set.2 !! id = nv !! id)
  /\ set.1 = set_levels (LowBatteryWarningLevel set.1)
                        (LowBatteryBtOffLevel set.1) st.
Proof.
  intros set. subst set. rewrite SetBatteryLevels_unfold. cbn [fst snd].
  repeat split.
  intros id HW HB. now rewrite !lookup_insert_ne by congruence.
Qed.

(** ** The hardware gate *)

Lemma WaitForAdcBusy_access polls :
  Forall (fun e => converter_access e = true) (WaitForAdcBusy polls).
Proof.
  unfold WaitForAdcBusy. apply Forall_app. split; [repeat constructor|].
  apply Forall_app. split; [|repeat constructor].
  induction (seq 0 polls); cbn; repeat constructor. assumption.
Qed.

Ltac access :=
  repeat first
    [ apply WaitForAdcBusy_access
    | apply Forall_nil_2
    | apply Forall_app_2
    | apply Forall_cons_2; [reflexivity|] ].

Lemma HardwareCfgCycle_gated w hw st : gated (HardwareCfgCycle w hw st).2.
Proof.
  exists ([SENSE_ENABLE HARDWARE_CFG] ++ StartHardwareCfgConversion
          ++ WaitForAdcBusy (busy_polls hw)
          ++ [READ_ADC12MEM HARDWARE_CFG; SENSE_DISABLE HARDWARE_CFG;
              DISABLE_ADC; DISABLE_ADC]).
  split.
  - cbn. rewrite <- !app_assoc. reflexivity.
  - access.
Qed.

Lemma BatterySenseCycle_gated w hw cal st :
  gated (BatterySenseCycle w hw cal st).2.
Proof.
  exists ([SENSE_ENABLE BATTERY_SENSE] ++ StartBatterySenseConversion
          ++ WaitForAdcBusy (busy_polls hw)
          ++ [READ_ADC12MEM BATTERY_SENSE; SENSE_DISABLE BATTERY_SENSE;
              DISABLE_ADC]).
  split.
  - cbn. rewrite <- !app_assoc. reflexivity.
  - access.
Qed.

Lemma LightSenseCycle_gated w hw st : gated (LightSenseCycle w hw st).2.
Proof.
  exists ([SENSE_ENABLE LIGHT_SENSE; TaskDelayLpmDisable; vTaskDelay 10;
           TaskDelayLpmEnable] ++ StartLightSenseConversion
          ++ WaitForAdcBusy (busy_polls hw)
          ++ [READ_ADC12MEM LIGHT_SENSE; SENSE_DISABLE LIGHT_SENSE;
              DISABLE_ADC]).
  split.
  - cbn. rewrite <- !app_assoc. reflexivity.
  - access.
Qed.

Lemma cycle_log_gated w tr : cycle_log w tr -> gated tr.
Proof.
  intros (hw & cal & st & [-> | [-> | ->]]).
  - apply HardwareCfgCycle_gated.
  - apply BatterySenseCycle_gated.
  - apply LightSenseCycle_gated.
Qed.

Lemma holding_inv (e : event) rest body :
  e :: rest = body ++ [xSemaphoreGive] ->
  Forall (fun e => converter_access e = true) body ->
  (e = xSemaphoreGive ∧ rest = [] ∧ body = [])
  ∨ (converter_access e = true
     ∧ ∃ body', body = e :: body' ∧ rest = body' ++ [xSemaphoreGive]
                ∧ Forall (fun e => converter_access e = true) body').
Proof.
  intros Heq Hall. destruct body as [|b body'].
  - cbn in Heq. injection Heq as -> ->. now left.
  - cbn in Heq. injection Heq as -> ->. right.
    inversion Hall; subst. eauto.
Qed.

Lemma gate_inv_step w σ σ' : gate_inv σ -> sys_step w σ σ' -> gate_inv σ'.
Proof.
  intros Hinv Hstep t'.
  destruct Hstep as [t tr σ Hnone Hlog | t rest σ Hp Hfree | t rest σ Hp
                    | t e rest σ Hp Hnt Hng | t σ Hp];
    cbn [pending holder]; pose proof (Hinv t) as Ht; rewrite ?Hnone, ?Hp in Ht;
    pose proof (Hinv t') as Ht'.
  - (* call *)
    destruct (decide (t = t')) as [<- | Hne].
    + rewrite lookup_insert_eq. left. split; [eapply cycle_log_gated, Hlog | exact Ht].
    + now rewrite lookup_insert_ne by exact Hne.
  - (* take *)
    destruct (decide (t = t')) as [<- | Hne].
    + rewrite lookup_insert_eq. right. left. split; [|reflexivity].
      destruct Ht as [[(body & Heq & Hall) _] | [[(body & Heq & Hall) _] | [Heq _]]].
      * injection Heq as ->. eauto.
      * destruct (holding_inv _ _ _ Heq Hall) as [(? & _) | (? & _)]; discriminate.
      * discriminate.
    + rewrite lookup_insert_ne by exact Hne. rewrite Hfree in Ht'.
      destruct (pending σ !! t') as [tr'|].
      * destruct Ht' as [[Hg _] | [[_ ?] | [-> _]]]; [|discriminate|].
        -- left. split; [exact Hg | congruence].
        -- right. right. split; [reflexivity | congruence].
      * congruence.
  - (* give *)
    assert (Hheld : holder σ = Some t ∧ rest = []).
    { destruct Ht as [[(body & Heq & _) _] | [[(body & Heq & Hall) Hh] | [Heq _]]].
      - discriminate.
      - destruct (holding_inv _ _ _ Heq Hall) as [(_ & -> & _) | (? & _)];
          [auto | discriminate].
      - discriminate. }
    destruct Hheld as [Hh ->].
    destruct (decide (t = t')) as [<- | Hne].
    + rewrite lookup_insert_eq. right. right. split; [reflexivity | discriminate].
    + rewrite lookup_insert_ne by exact Hne. rewrite Hh in Ht'.
      destruct (pending σ !! t') as [tr'|]; [|discriminate].
      destruct Ht' as [[Hg _] | [[_ ?] | [-> _]]]; [|congruence|].
      * left. split; [exact Hg | discriminate].
      * right. right. split; [reflexivity | discriminate].
  - (* another event *)
    destruct (decide (t = t')) as [<- | Hne].
    + rewrite lookup_insert_eq.
      destruct Ht as [[(body & Heq & _) _] | [[(body & Heq & Hall) Hh] | [Heq _]]].
      * injection Heq as -> _. contradiction.
      * destruct (holding_inv _ _ _ Heq Hall)
          as [(-> & _) | (_ & body' & _ & -> & Hall')]; [contradiction|].
        right. left. split; [eauto | exact Hh].
      * discriminate.
    + now rewrite lookup_insert_ne by exact Hne.
  - (* return *)
    destruct (decide (t = t')) as [<- | Hne].
    + rewrite lookup_delete_eq.
      destruct Ht as [[(body & Heq & _) _] | [[(body & Heq & _) _] | [_ Hh]]].
      * discriminate.
      * destruct body; discriminate.
      * exact Hh.
    + now rewrite lookup_delete_ne by exact Hne.
Qed.

Lemma reachable_gate_inv w σ : reachable w σ -> gate_inv σ.
Proof.
  induction 1 as [|σ σ' _ IH Hstep].
  - intros t. cbn. rewrite lookup_empty. discriminate.
  - eapply gate_inv_step; eassumption.
Qed.

Lemma in_sequence_holder w σ t :
  reachable w σ -> in_sequence σ t -> holder σ = Some t.
Proof.
  intros Hr (tr & Hp & Hgive & Htake).
  pose proof (reachable_gate_inv w σ Hr t) as Ht. rewrite Hp in Ht.
  destruct Ht as [[(body & -> & _) _] | [[_ Hh] | [-> _]]].
  - exfalso. apply Htake. constructor.
  - exact Hh.
  - now apply elem_of_nil in Hgive.
Qed.

Lemma access_count (body : list event) (s : event) :
  converter_access s = false ->
  Forall (fun e => converter_access e = true) body ->
  count_occ event_eq_dec body s = 0%nat.
Proof.
  intros Hs Hall. induction Hall as [|e body He _ IH]; [reflexivity|].
  cbn. destruct (event_eq_dec e s) as [-> | _]; [congruence | exact IH].
Qed.

Lemma holder_in_sequence w σ t :
  reachable w σ -> holder σ = Some t -> in_sequence σ t.
Proof.
  intros Hr Hh. pose proof (reachable_gate_inv w σ Hr t) as Ht.
  destruct (pending σ !! t) as [tr|] eqn:Hp; [|contradiction].
  destruct Ht as [[_ ?] | [[(body & -> & Hall) _] | [_ ?]]]; try contradiction.
  exists (body ++ [xSemaphoreGive]). split; [exact Hp|]. split.
  - apply elem_of_app. right. constructor.
  - intros Hin. apply elem_of_app in Hin as [Hin | Hin].
    + rewrite Forall_forall in Hall. specialize (Hall _ Hin). discriminate.
    + apply elem_of_cons in Hin as [Hin | Hin]; [discriminate|].
      now apply elem_of_nil in Hin.
Qed.

(** C4.  The log of every execution of HardwareCfgCycle, BatterySenseCycle
    and LightSenseCycle is one xSemaphoreTake, then converter and sensor
    accesses only, then one xSemaphoreGive as the last event before the
    function returns : the mutex is taken exactly once before any converter
    access and given exactly once, on the single path through the cycle.  In
    every state that tasks calling the three cycles can reach from the free
    gate : a task about to make a converter access holds the gate; at most
    one task is between its take and its give, so no two cycles overlap in
    the enable/convert/read/disable sequence; the gate is held only by a task
    inside that sequence, so it is free once every started cycle has
    completed. *)
Theorem C4_gate_taken_and_given_once w :
  (forall tr, cycle_log w tr ->
     (exists body,
        tr = xSemaphoreTake :: body ++ [xSemaphoreGive]
        /\ Forall (fun e => converter_access e = true) body)
     /\ count_occ event_eq_dec tr xSemaphoreTake = 1%nat
     /\ count_occ event_eq_dec tr xSemaphoreGive = 1%nat)
  /\ (forall σ, reachable w σ ->
        (forall t e rest,
           pending σ !! t = Some (e :: rest) ->
           converter_access e = true -> holder σ = Some t)
        /\ (forall t1 t2, in_sequence σ t1 -> in_sequence σ t2 -> t1 = t2)
        /\ (forall t, holder σ = Some t <-> in_sequence σ t)
        /\ ((forall t, ~ in_sequence σ t) -> holder σ = None)).
Proof.
  split.
  - intros tr Hlog. destruct (cycle_log_gated w tr Hlog) as (body & -> & Hall).
    split; [eauto|].
    cbn [count_occ]. rewrite !count_occ_app.
    rewrite (access_count body xSemaphoreTake),
            (access_count body xSemaphoreGive) by (reflexivity || assumption).
    cbn [count_occ Nat.add].
    split; repeat (destruct (event_eq_dec _ _); try congruence).
  - intros σ Hr. split; [|split; [|split]].
    + intros t e rest Hp He.
      pose proof (reachable_gate_inv w σ Hr t) as Ht. rewrite Hp in Ht.
      destruct Ht as [[(body & Heq & _) _] | [[_ Hh] | [Heq _]]].
      * injection Heq as -> _. discriminate.
      * exact Hh.
      * discriminate.
    + intros t1 t2 H1 H2.
      apply (in_sequence_holder w σ _ Hr) in H1, H2. congruence.
    + intros t. split; [now apply (holder_in_sequence w)
                       | now apply (in_sequence_holder w)].
    + intros Hnone. destruct (holder σ) as [t|] eqn:Hh; [|reflexivity].
      exfalso. apply (Hnone t). now apply (holder_in_sequence w).
Qed.

(** A run of two tasks : task 0 is inside a battery cycle and holds the gate
    while task 1 has called the light cycle and waits at its take. *)
Example two_tasks_reachable :
  exists σ, reachable 16 σ
            /\ in_sequence σ 0%nat
            /\ holder σ = Some 0%nat
            /\ pending σ !! 1%nat
               = Some (LightSenseCycle 16 (MkHw 100 0) boot_state).2.
Proof.
  set (b := (BatterySenseCycle 16 (MkHw 2000 0) (MkCal false 0) boot_state).2).
  set (l := (LightSenseCycle 16 (MkHw 100 0) boot_state).2).
  set (σ1 := MkSys None (<[0%nat := b]> ∅)).
  set (σ2 := MkSys (Some 0%nat) (<[0%nat := tail b]> (<[0%nat := b]> ∅))).
  set (σ3 := MkSys (Some 0%nat)
               (<[1%nat := l]> (<[0%nat := tail b]> (<[0%nat := b]> ∅)))).
  assert (Hb : cycle_log 16 b)
    by (exists (MkHw 2000 0), (MkCal false 0), boot_state; now right; left).
  assert (Hl : cycle_log 16 l)
    by (exists (MkHw 100 0), (MkCal false 0), boot_state; now right; right).
  assert (S1 : sys_step 16 sys_init σ1)
    by exact (step_call 16 0%nat b sys_init eq_refl Hb).
  assert (S2 : sys_step 16 σ1 σ2).
  { refine (step_take 16 0%nat (tail b) σ1 _ eq_refl).
    cbn [pending σ1]. now rewrite lookup_insert_eq. }
  assert (S3 : sys_step 16 σ2 σ3).
  { refine (step_call 16 1%nat l σ2 _ Hl).
    cbn [pending σ2]. now rewrite !lookup_insert_ne by discriminate. }
  exists σ3. split; [|split; [|split]].
  - eapply reachable_step; [|exact S3].
    eapply reachable_step; [|exact S2].
    eapply reachable_step; [apply reachable_init | exact S1].
  - exists (tail b). unfold σ3. split; [|split].
    + cbn [pending]. rewrite lookup_insert_ne by discriminate.
      now rewrite lookup_insert_eq.
    + refine (bool_decide_unpack _ _). vm_compute. exact I.
    + refine (bool_decide_unpack _ _). vm_compute. exact I.
  - reflexivity.
  - unfold σ3. cbn [pending]. now rewrite lookup_insert_eq.
Qed.

Lemma C4_gate_taken_and_given_once_witness :
  let tr := (BatterySenseCycle 16 (MkHw 2000 3) (MkCal false 0) boot_state).2 in
  cycle_log 16 tr
  /\ count_occ event_eq_dec tr xSemaphoreTake = 1%nat
  /\ count_occ event_eq_dec tr xSemaphoreGive = 1%nat
  /\ reachable 16 sys_init
  /\ holder sys_init = None.
Proof.
  intros tr.
  assert (Hlog : cycle_log 16 tr)
    by (exists (MkHw 2000 3), (MkCal false 0), boot_state; now right; left).
  assert (Hinit : reachable 16 sys_init) by constructor.
  destruct (C4_gate_taken_and_given_once 16) as [Hcycle Hsys].
  destruct (Hcycle tr Hlog) as (_ & Htake & Hgive).
  destruct (Hsys sys_init Hinit) as (_ & _ & _ & Hfree).
  split; [exact Hlog|]. split; [exact Htake|]. split; [exact Hgive|].
  split; [exact Hinit|].
  apply Hfree. intros t (tr' & Hp & _). cbn in Hp.
  rewrite lookup_empty in Hp. discriminate.
Defined.

(* ===================================================================== *)
(** * Further properties of Adc.c                                         *)
(* ===================================================================== *)

(** ** The variables stay within their types *)

Lemma in_uint_uint w x : 0 <= w -> in_uint w (uint w x).
Proof. intros Hw. now apply uint_range. Qed.

Lemma is_flag_0 : is_flag 0.
Proof. now left. Qed.

Lemma is_flag_1 : is_flag 1.
Proof. now right. Qed.

Lemma ring_index_next idx :
  0 <= idx < MAX_SAMPLES ->
  0 <= (if MAX_SAMPLES <=? uchar (idx + 1) then 0 else uchar (idx + 1))
    < MAX_SAMPLES.
Proof.
  unfold MAX_SAMPLES, uchar. intros H.
  rewrite (Z.mod_small (idx + 1)) by lia.
  destruct (Z.leb_spec 10 (idx + 1)); lia.
Qed.

Lemma ring_ready_next idx r :
  is_flag r -> is_flag (if MAX_SAMPLES <=? uchar (idx + 1) then 1 else r).
Proof. intros H. destruct (_ <=? _); [apply is_flag_1 | exact H]. Qed.

Lemma set_latches_ok w a b st :
  is_flag a -> is_flag b -> state_ok w st -> state_ok w (set_latches a b st).
Proof. intros Ha Hb []. now constructor. Qed.

Lemma set_levels_ok w a b st :
  in_uint w a -> in_uint w b -> state_ok w st -> state_ok w (set_levels a b st).
Proof. intros Ha Hb []. now constructor. Qed.

Lemma LowBatteryMonitor_ok w env st :
  state_ok w st -> state_ok w (LowBatteryMonitor w env st).1.
Proof.
  intros Hok. unfold LowBatteryMonitor.
  pose proof (ok_warning_sent _ _ Hok) as HW.
  pose proof (ok_btoff_sent _ _ Hok) as HB.
  destruct (QueryPowerGood env); cbn [fst].
  - auto using set_latches_ok, is_flag_0.
  - destruct (_ && _); cbn [fst snd];
      destruct (_ && _); cbn [fst snd LowBatteryBtOffMessageSent set_latches];
      auto using set_latches_ok, is_flag_1.
Qed.

Lemma exec_op_state_ok w idW idB o s :
  0 <= w -> state_ok w s.1 -> state_ok w (exec_op w idW idB o s).1.1.
Proof.
  intros Hw Hok. destruct s as [st nv]. cbn [fst snd] in Hok.
  destruct o as [hw|hw cal|hw|env|mem p].
  - cbn. destruct Hok. constructor; cbn; auto. now apply in_uint_uint.
  - cbn.
    assert (Hv : in_uint w (battery_published w (hw, cal))).
    { rewrite battery_published_unfold. destruct (QueryCalibrationValid cal);
        now apply in_uint_uint. }
    destruct Hok. constructor; cbn; auto.
    + now rewrite length_insert.
    + now apply ring_index_next.
    + now apply Forall_insert.
    + now apply ring_ready_next.
  - cbn.
    assert (Hv : in_uint w (light_published w hw)) by now apply in_uint_uint.
    destruct Hok. constructor; cbn; auto.
    + now rewrite length_insert.
    + now apply ring_index_next.
    + now apply Forall_insert.
    + now apply ring_ready_next.
  - cbn [exec_op fst snd].
    pose proof (LowBatteryMonitor_ok w env st Hok) as H.
    now destruct (LowBatteryMonitor w env st).
  - cbn [exec_op fst snd]. rewrite SetBatteryLevels_unfold. cbn [fst snd].
    apply set_levels_ok; auto using in_uint_uint.
Qed.

Lemma run_ops_state_ok w idW idB ops s :
  0 <= w -> state_ok w s.1 -> state_ok w (run_ops w idW idB ops s).1.
Proof.
  intros Hw. revert s. induction ops as [|o ops IH]; intros s Hok; [exact Hok|].
  cbn [run_ops fold_left]. apply IH. now apply exec_op_state_ok.
Qed.

Lemma exec_op_ok w idW idB o s :
  0 <= w ->
  state_ok w s.1 -> store_ok w idW idB s.2 ->
  state_ok w (exec_op w idW idB o s).1.1
  /\ store_ok w idW idB (exec_op w idW idB o s).1.2.
Proof.
  intros Hw Hok Hnv. split; [now apply exec_op_state_ok|].
  destruct (is_set_levels o) eqn:Hk.
  - destruct o as [hw|hw cal|hw|env|mem p]; try discriminate.
    destruct s as [st nv]. cbn [exec_op fst snd] in *.
    rewrite SetBatteryLevels_unfold. cbn [fst snd].
    intros id v Hid Hlook.
    destruct (decide (id = idB)) as [-> | HneB].
    + rewrite lookup_insert_eq in Hlook. injection Hlook as <-.
      now apply in_uint_uint.
    + rewrite lookup_insert_ne in Hlook by congruence.
      destruct (decide (id = idW)) as [-> | HneW].
      * rewrite lookup_insert_eq in Hlook. injection Hlook as <-.
        now apply in_uint_uint.
      * rewrite lookup_insert_ne in Hlook by congruence. eauto.
  - destruct s as [st nv], o as [hw|hw cal|hw|env|mem p]; try discriminate;
      try exact Hnv.
    cbn [exec_op fst snd] in *. now destruct (LowBatteryMonitor w env st).
Qed.

Lemma run_ops_ok w idW idB ops s :
  0 <= w ->
  state_ok w s.1 -> store_ok w idW idB s.2 ->
  state_ok w (run_ops w idW idB ops s).1
  /\ store_ok w idW idB (run_ops w idW idB ops s).2.
Proof.
  intros Hw. revert s. induction ops as [|o ops IH]; intros s Hok Hnv;
    [now split|].
  cbn [run_ops fold_left].
  destruct (exec_op_ok w idW idB o s Hw Hok Hnv) as [H1 H2].
  exact (IH _ H1 H2).
Qed.

Lemma OsalNvItemInit_ok w idW idB id dflt (nv : gmap Z Z) :
  id = idW \/ id = idB ->
  in_uint w dflt -> store_ok w idW idB nv ->
  in_uint w (OsalNvItemInit id dflt nv).1
  /\ store_ok w idW idB (OsalNvItemInit id dflt nv).2.
Proof.
  intros Hid Hd Hnv. unfold OsalNvItemInit.
  destruct (nv !! id) as [v|] eqn:Hl; cbn [fst snd].
  - split; [eauto | exact Hnv].
  - split; [exact Hd|]. intros id' v' Hid' Hl'.
    destruct (decide (id' = id)) as [-> | Hne].
    + rewrite lookup_insert_eq in Hl'. now injection Hl' as <-.
    + rewrite lookup_insert_ne in Hl' by congruence. eauto.
Qed.

Lemma InitializeAdc_ok w idW idB st nv :
  16 <= w ->
  length (BatterySenseSamples st) = Z.to_nat MAX_SAMPLES ->
  length (LightSenseSamples st) = Z.to_nat MAX_SAMPLES ->
  Forall (in_uint w) (BatterySenseSamples st) ->
  Forall (in_uint w) (LightSenseSamples st) ->
  store_ok w idW idB nv ->
  state_ok w (InitializeAdc idW idB st nv).1
  /\ store_ok w idW idB (InitializeAdc idW idB st nv).2.
Proof.
  intros Hw Hbl Hll Hbs Hls Hnv.
  pose proof (pow2_16_le w Hw) as Hp.
  assert (Hz : in_uint w 0) by (unfold in_uint; lia).
  unfold InitializeAdc, InitializeLowBatteryLevels.
  destruct (OsalNvItemInit_ok w idW idB idW DEFAULT_LOW_BATTERY_WARNING_LEVEL nv)
    as [Hw1 Hnv1]; [now left | unfold in_uint, DEFAULT_LOW_BATTERY_WARNING_LEVEL; lia
                    | exact Hnv |].
  destruct (OsalNvItemInit idW DEFAULT_LOW_BATTERY_WARNING_LEVEL nv)
    as [warning nv1]. cbn [fst snd] in Hw1, Hnv1.
  destruct (OsalNvItemInit_ok w idW idB idB DEFAULT_LOW_BATTERY_BTOFF_LEVEL nv1)
    as [Hb2 Hnv2]; [now right | unfold in_uint, DEFAULT_LOW_BATTERY_BTOFF_LEVEL; lia
                    | exact Hnv1 |].
  destruct (OsalNvItemInit idB DEFAULT_LOW_BATTERY_BTOFF_LEVEL nv1)
    as [btoff nv2]. cbn [fst snd] in Hb2, Hnv2.
  cbn [fst snd]. split; [|exact Hnv2].
  constructor; cbn; auto using is_flag_0; unfold MAX_SAMPLES; lia.
Qed.

(** X1.  After InitializeAdc (run on arrays of MAX_SAMPLES [unsigned int]
    values and a store whose threshold items are [unsigned int] values) and
    any sequence of calls, with any counts, calibration values and bytes :
    both arrays still have MAX_SAMPLES elements, both write indices are in
    0..9, so no cycle writes outside its array, every reading, sample and
    threshold is in 0 .. 2^w - 1, and the four flags are 0 or 1. *)
Theorem X1_state_stays_in_range w idW idB st0 nv0 ops :
  16 <= w ->
  length (BatterySenseSamples st0) = Z.to_nat MAX_SAMPLES ->
  length (LightSenseSamples st0) = Z.to_nat MAX_SAMPLES ->
  Forall (in_uint w) (BatterySenseSamples st0) ->
  Forall (in_uint w) (LightSenseSamples st0) ->
  store_ok w idW idB nv0 ->
  let s := run_ops w idW idB ops (InitializeAdc idW idB st0 nv0) in
  state_ok w s.1 /\ store_ok w idW idB s.2.
Proof.
  intros Hw Hbl Hll Hbs Hls Hnv s.
  destruct (InitializeAdc_ok w idW idB st0 nv0 Hw Hbl Hll Hbs Hls Hnv) as [H1 H2].
  apply run_ops_ok; [lia | exact H1 | exact H2].
Qed.

(** ** The conversions as functions of the count *)

Lemma increasing_on_counts (f : Z -> Z) :
  (forall c, 0 <= c <= 4094 -> f c < f (c + 1)) ->
  forall c1 c2, 0 <= c1 < c2 -> c2 <= 4095 -> f c1 < f c2.
Proof.
  intros Hstep c1 c2 H H'.
  replace c2 with (c1 + Z.of_nat (S (Z.to_nat (c2 - c1 - 1)))) in * by lia.
  induction (Z.to_nat (c2 - c1 - 1)) as [|n IH].
  - apply Hstep. lia.
  - etransitivity; [apply IH; lia|].
    replace (c1 + Z.of_nat (S (S n))) with (c1 + Z.of_nat (S n) + 1) by lia.
    apply Hstep. lia.
Qed.

Lemma light_formula_step c :
  0 <= c <= 4094 -> light_formula c < light_formula (c + 1).
Proof.
  intros Hc.
  pose proof (on_counts
    (fun c => (4095 <=? c) || (light_formula c <? light_formula (c + 1)))) as H.
  specialize (H ltac:(vm_compute; reflexivity) c ltac:(lia)). cbv beta in H.
  apply orb_prop in H as [H | H]; [apply Z.leb_le in H; lia | now apply Z.ltb_lt].
Qed.

Lemma battery_formula_step c :
  0 <= c <= 4094 -> battery_formula c < battery_formula (c + 1).
Proof.
  intros Hc.
  pose proof (on_counts
    (fun c => (4095 <=? c) || (battery_formula c <? battery_formula (c + 1)))) as H.
  specialize (H ltac:(vm_compute; reflexivity) c ltac:(lia)). cbv beta in H.
  apply orb_prop in H as [H | H]; [apply Z.leb_le in H; lia | now apply Z.ltb_lt].
Qed.

Lemma light_formula_bound c : 0 <= c <= 4095 -> 0 <= light_formula c <= 24993.
Proof.
  intros Hc. split; [apply (light_conversion_binary64 c Hc)|].
  destruct (Z.eq_dec c 4095) as [-> | Hne]; [vm_compute; discriminate|].
  change 24993 with (light_formula 4095).
  apply Z.lt_le_incl, (increasing_on_counts _ light_formula_step); lia.
Qed.

(** X3.  On the twelve-bit range both conversions are strictly increasing
    in the count, so two different counts never give the same millivolt
    value, and they are bounded by their full-scale values 24993 (light and
    hardware configuration) and 6440 (battery). *)
Theorem X3_conversions_strictly_increasing w c1 c2 :
  16 <= w -> 0 <= c1 < c2 -> c2 <= 4095 ->
  AdcCountsToVoltage w c1 < AdcCountsToVoltage w c2
  /\ AdcCountsToBatteryVoltage w c1 < AdcCountsToBatteryVoltage w c2
  /\ AdcCountsToVoltage w c2 <= 24993
  /\ AdcCountsToBatteryVoltage w c2 <= 6440.
Proof.
  intros Hw Hc Hc'.
  rewrite !AdcCountsToVoltage_formula, !AdcCountsToBatteryVoltage_formula by lia.
  split; [|split; [|split]].
  - now apply (increasing_on_counts _ light_formula_step).
  - now apply (increasing_on_counts _ battery_formula_step).
  - apply light_formula_bound. lia.
  - apply (battery_conversion_binary64 c2). lia.
Qed.

Lemma X3_conversions_strictly_increasing_witness :
  16 <= 16 /\ 0 <= 1000 < 1001 /\ 1001 <= 4095
  /\ AdcCountsToVoltage 16 1000 < AdcCountsToVoltage 16 1001
  /\ AdcCountsToBatteryVoltage 16 1000 < AdcCountsToBatteryVoltage 16 1001
  /\ AdcCountsToVoltage 16 1001 <= 24993
  /\ AdcCountsToBatteryVoltage 16 1001 <= 6440.
Proof.
  split; [lia|]. split; [lia|]. split; [lia|].
  apply (X3_conversions_strictly_increasing 16 1000 1001); lia.
Defined.

(** ** The light average *)

Lemma light_published_unfold w hw :
  light_published w hw = AdcCountsToVoltage w (ADC12MEM hw).
Proof. reflexivity. Qed.

Lemma light_window_sum w (l : list adc_hw) :
  16 <= w ->
  Forall (fun hw => 0 <= ADC12MEM hw <= 4095) l ->
  0 <= sumZ (map (light_published w) l) <= 24993 * Z.of_nat (length l).
Proof.
  intros Hw Hall. induction Hall as [|hw l Hc _ IH]; cbn [map sumZ length]; [lia|].
  rewrite light_published_unfold, AdcCountsToVoltage_formula by assumption.
  pose proof (light_formula_bound _ Hc). lia.
Qed.

(** X2.  After InitializeAdc and any sequence of light cycles
    ReadLightSenseAverage returns zero before the first cycle, the most recent
    published value while fewer than 10 values have been published, and from
    the tenth cycle on ((sum of the last 10 published values) mod 2^w) / 10.
    That is their truncated mean whenever the sum is below 2^w; for
    twelve-bit counts this is always so when [unsigned int] has 18 bits or
    more, the ten values adding up to at most 249930. *)
Theorem X2_light_average w idW idB st0 nv ins :
  16 <= w ->
  length (LightSenseSamples st0) = Z.to_nat MAX_SAMPLES ->
  let st := light_cycles w ins (InitializeAdc idW idB st0 nv).1 in
  let hist := map (light_published w) ins in
  let n := length ins in
  let last10 := drop (n - 10) hist in
  (n = 0%nat -> ReadLightSenseAverage w st = 0)
  /\ ((0 < n < 10)%nat ->
      LightSenseAverageReady st = 0
      /\ Some (ReadLightSenseAverage w st) = last hist)
  /\ ((10 <= n)%nat ->
      LightSenseAverageReady st = 1
      /\ ReadLightSenseAverage w st = (sumZ last10 mod 2 ^ w) / 10
      /\ (sumZ last10 < 2 ^ w ->
          ReadLightSenseAverage w st = sumZ last10 / 10)
      /\ (18 <= w ->
          Forall (fun hw => 0 <= ADC12MEM hw <= 4095) (drop (n - 10) ins) ->
          ReadLightSenseAverage w st = sumZ last10 / 10)).
Proof.
  intros Hw Hlen st hist n last10.
  change (Z.to_nat MAX_SAMPLES) with 10%nat in Hlen.
  destruct (InitializeAdc_fields idW idB st0 nv)
    as (_ & _ & Hls & _ & Hsam & _ & Hidx & _ & Hrdy & _).
  rewrite <- Hsam in Hlen.
  destruct (light_cycles_inv w ins _ Hlen Hidx) as [Hinv Hsense].
  fold st hist in Hinv, Hsense. rewrite Hrdy in Hinv. rewrite Hls in Hsense.
  pose proof (ring_inv_total w _ _ _ _ _ _ Hlen Hinv) as Htot.
  destruct Hinv as (k & q & Hk & Hn & _ & _ & Hready).
  unfold hist in Hn, Hready. rewrite length_map in Hn, Hready. fold n in Hn, Hready.
  assert (Hpub : Forall (fun x => 0 <= x) hist).
  { unfold hist. apply Forall_map, Forall_forall. intros hw _.
    rewrite light_published_unfold. unfold AdcCountsToVoltage.
    apply uint_range. lia. }
  assert (Hready_avg : (10 <= n)%nat ->
            ReadLightSenseAverage w st = (sumZ last10 mod 2 ^ w) / 10).
  { intros Hn10. unfold ReadLightSenseAverage.
    destruct (Nat.leb_spec 10 n); [|lia]. rewrite Hready. cbn [Z.eqb].
    rewrite Htot, window_full by (unfold hist; rewrite length_map; fold n; lia).
    unfold last10, hist, MAX_SAMPLES. rewrite length_map, Hlen. reflexivity. }
  assert (Hexact : (10 <= n)%nat -> sumZ last10 < 2 ^ w ->
            ReadLightSenseAverage w st = sumZ last10 / 10).
  { intros Hn10 Hsum. rewrite (Hready_avg Hn10), Z.mod_small; [reflexivity|].
    split; [|exact Hsum]. apply sumZ_nonneg. unfold last10. now apply Forall_drop. }
  split; [|split].
  - intros Hn0. unfold ReadLightSenseAverage.
    destruct (Nat.leb_spec 10 n); [lia|]. rewrite Hready. cbn.
    rewrite Hsense. destruct ins; [reflexivity | cbn in Hn0; lia].
  - intros Hn9. destruct (Nat.leb_spec 10 n); [lia|]. split; [exact Hready|].
    unfold ReadLightSenseAverage. rewrite Hready. cbn.
    rewrite Hsense. destruct (last hist) eqn:Hl; [reflexivity|].
    apply last_None in Hl. unfold hist in Hl.
    destruct ins; [cbn in *; lia | discriminate].
  - intros Hn10. split; [|split; [|split]].
    + destruct (Nat.leb_spec 10 n); [exact Hready | lia].
    + now apply Hready_avg.
    + now apply Hexact.
    + intros Hw18 Hall. apply Hexact; [exact Hn10|].
      unfold last10, hist. rewrite skipn_map.
      pose proof (light_window_sum w _ Hw Hall) as Hs.
      rewrite length_drop in Hs. fold n in Hs.
      assert (262144 <= 2 ^ w)
        by (change 262144 with (2 ^ 18); apply Z.pow_le_mono_r; lia).
      lia.
Qed.

Lemma X2_light_average_witness :
  let ins := map (fun c => MkHw c 0) [4095; 4095; 4095; 4095; 4095; 4095;
                                      4095; 4095; 4095; 4095; 100] in
  let st := light_cycles 32 ins (InitializeAdc 1 2 boot_state ∅).1 in
  16 <= 32 /\ length (LightSenseSamples boot_state) = Z.to_nat MAX_SAMPLES
  /\ LightSenseAverageReady st = 1
  /\ ReadLightSenseAverage 32 st
     = sumZ (drop 1 (map (light_published 32) ins)) / 10.
Proof.
  intros ins st.
  assert (H1 : 16 <= 32) by lia.
  assert (H2 : length (LightSenseSamples boot_state) = Z.to_nat MAX_SAMPLES)
    by reflexivity.
  split; [lia|]. split; [exact H2|].
  destruct (X2_light_average 32 1 2 boot_state ∅ ins H1 H2) as (_ & _ & H).
  destruct H as (Hr & _ & _ & He); [cbn; lia|].
  split; [exact Hr|]. apply He; [lia|]. cbn. repeat constructor; cbn; lia.
Defined.

(** ** Calls of different kinds do not disturb each other *)

Lemma battery_view_cycle w hw cal st st' :
  battery_view st = battery_view st' ->
  battery_view (BatterySenseCycle w hw cal st).1
  = battery_view (BatterySenseCycle w hw cal st').1.
Proof.
  unfold battery_view. intros H. injection H as H1 H2 H3 H4.
  cbn. now rewrite H2, H3, H4.
Qed.

Lemma light_view_cycle w hw st st' :
  light_view st = light_view st' ->
  light_view (LightSenseCycle w hw st).1 = light_view (LightSenseCycle w hw st').1.
Proof.
  unfold light_view. intros H. injection H as H1 H2 H3 H4.
  cbn. now rewrite H2, H3, H4.
Qed.

Lemma LowBatteryMonitor_frame w env st :
  exists a b, (LowBatteryMonitor w env st).1 = set_latches a b st.
Proof.
  unfold LowBatteryMonitor.
  destruct (QueryPowerGood env); cbn [fst]; [eauto|].
  destruct (_ && _); cbn [fst snd]; destruct (_ && _); cbn [fst]; eauto.
  exists (LowBatteryWarningMessageSent st), (LowBatteryBtOffMessageSent st).
  now destruct st.
Qed.

Lemma exec_op_views w idW idB o s :
  (is_battery_cycle o = false ->
   battery_view (exec_op w idW idB o s).1.1 = battery_view s.1)
  /\ (is_light_cycle o = false ->
      light_view (exec_op w idW idB o s).1.1 = light_view s.1)
  /\ (is_hardware_cfg_cycle o = false ->
      HardwareConfiguration (exec_op w idW idB o s).1.1 = HardwareConfiguration s.1).
Proof.
  destruct s as [st nv], o as [hw|hw cal|hw|env|mem p];
    cbn [is_battery_cycle is_light_cycle is_hardware_cfg_cycle];
    repeat split; try discriminate; intros _; try reflexivity;
    cbn [exec_op fst snd];
    destruct (LowBatteryMonitor_frame w env st) as (a & b & Hf);
    destruct (LowBatteryMonitor w env st) as [st' log]; cbn [fst] in *;
    now rewrite Hf.
Qed.

Lemma run_ops_battery_view w idW idB ops s st' :
  battery_view s.1 = battery_view st' ->
  battery_view (run_ops w idW idB ops s).1
  = battery_view (battery_cycles w (battery_inputs ops) st').
Proof.
  revert s st'. induction ops as [|o ops IH]; intros s st' Hv; [exact Hv|].
  cbn [run_ops fold_left]. change (fold_left _ ops ?x) with (run_ops w idW idB ops x).
  destruct (exec_op_views w idW idB o s) as (Hb & _ & _).
  destruct o as [hw|hw cal|hw|env|mem p];
    try (cbn [battery_inputs omap]; apply IH; rewrite Hb by reflexivity; exact Hv).
  change (battery_inputs (OpBatterySenseCycle hw cal :: ops))
    with ((hw, cal) :: battery_inputs ops).
  cbn [battery_cycles fold_left fst snd].
  change (fold_left _ (battery_inputs ops) ?x)
    with (battery_cycles w (battery_inputs ops) x).
  apply IH. destruct s as [st nv]. cbn [exec_op fst snd].
  now apply battery_view_cycle.
Qed.

Lemma run_ops_light_view w idW idB ops s st' :
  light_view s.1 = light_view st' ->
  light_view (run_ops w idW idB ops s).1
  = light_view (light_cycles w (light_inputs ops) st').
Proof.
  revert s st'. induction ops as [|o ops IH]; intros s st' Hv; [exact Hv|].
  cbn [run_ops fold_left]. change (fold_left _ ops ?x) with (run_ops w idW idB ops x).
  destruct (exec_op_views w idW idB o s) as (_ & Hl & _).
  destruct o as [hw|hw cal|hw|env|mem p];
    try (cbn [light_inputs omap]; apply IH; rewrite Hl by reflexivity; exact Hv).
  change (light_inputs (OpLightSenseCycle hw :: ops))
    with (hw :: light_inputs ops).
  cbn [light_cycles fold_left].
  change (fold_left _ (light_inputs ops) ?x)
    with (light_cycles w (light_inputs ops) x).
  apply IH. destruct s as [st nv]. cbn [exec_op fst snd].
  now apply light_view_cycle.
Qed.

Lemma battery_view_reads w st st' :
  battery_view st = battery_view st' ->
  ReadBatterySense st = ReadBatterySense st'
  /\ ReadBatterySenseAverage w st = ReadBatterySenseAverage w st'.
Proof.
  unfold battery_view, ReadBatterySense, ReadBatterySenseAverage.
  intros H. injection H as -> -> _ ->. now split.
Qed.

Lemma light_view_reads w st st' :
  light_view st = light_view st' ->
  ReadLightSense st = ReadLightSense st'
  /\ ReadLightSenseAverage w st = ReadLightSenseAverage w st'.
Proof.
  unfold light_view, ReadLightSense, ReadLightSenseAverage.
  intros H. injection H as -> -> _ ->. now split.
Qed.

(** X5.  Whatever calls are interleaved with them (cycles of the other
    channels, monitor evaluations, threshold changes), the battery reading
    and the battery average after a sequence of calls are those the battery
    cycles of the sequence alone produce, and likewise the light reading and
    the light average depend on the light cycles only. *)
Theorem X5_averages_depend_on_own_cycles w idW idB ops s :
  let after := (run_ops w idW idB ops s).1 in
  let battery_only := battery_cycles w (battery_inputs ops) s.1 in
  let light_only := light_cycles w (light_inputs ops) s.1 in
  ReadBatterySense after = ReadBatterySense battery_only
  /\ ReadBatterySenseAverage w after = ReadBatterySenseAverage w battery_only
  /\ ReadLightSense after = ReadLightSense light_only
  /\ ReadLightSenseAverage w after = ReadLightSenseAverage w light_only.
Proof.
  intros after battery_only light_only.
  destruct (battery_view_reads w after battery_only) as [H1 H2];
    [now apply run_ops_battery_view|].
  destruct (light_view_reads w after light_only) as [H3 H4];
    [now apply run_ops_light_view|].
  auto.
Qed.

Lemma run_ops_snoc w idW idB ops o s :
  run_ops w idW idB (ops ++ [o]) s
  = (exec_op w idW idB o (run_ops w idW idB ops s)).1.
Proof. unfold run_ops. now rewrite fold_left_app. Qed.

Lemma battery_cycles_reading w ins st :
  BatterySense (battery_cycles w ins st)
  = default (BatterySense st) (last (map (battery_published w) ins)).
Proof.
  induction ins as [|i ins _] using rev_ind; [reflexivity|].
  rewrite battery_cycles_snoc, map_app. cbn [map]. rewrite last_snoc.
  now destruct i.
Qed.

Lemma light_cycles_reading w ins st :
  LightSense (light_cycles w ins st)
  = default (LightSense st) (last (map (light_published w) ins)).
Proof.
  induction ins as [|hw ins _] using rev_ind; [reflexivity|].
  rewrite light_cycles_snoc, map_app. cbn [map]. now rewrite last_snoc.
Qed.

Lemma run_ops_hardware_cfg w idW idB ops s :
  HardwareConfiguration (run_ops w idW idB ops s).1
  = default (HardwareConfiguration s.1)
      (last (map (fun hw => AdcCountsToVoltage w (ADC12MEM hw))
                 (hardware_cfg_inputs ops))).
Proof.
  induction ops as [|o ops IH] using rev_ind; [reflexivity|].
  rewrite run_ops_snoc. unfold hardware_cfg_inputs. rewrite omap_app.
  fold (hardware_cfg_inputs ops).
  destruct (exec_op_views w idW idB o (run_ops w idW idB ops s)) as (_ & _ & Hh).
  destruct o as [hw|hw cal|hw|env|mem p]; simpl (omap _ [_]);
    try (rewrite app_nil_r, Hh by reflexivity; exact IH).
  rewrite map_app. cbn [map]. rewrite last_snoc. reflexivity.
Qed.

(** X4.  After InitializeAdc and any sequence of calls each instantaneous
    accessor returns what the most recent cycle of its own channel
    published, whatever was called since, and zero when no cycle of that
    channel has run : ReadBatterySense the calibrated battery conversion,
    ReadLightSense and ReadHardwareConfiguration the plain conversion of the
    count (the hardware configuration is never averaged). *)
Theorem X4_readings_are_last_published w idW idB st0 nv0 ops :
  let s := run_ops w idW idB ops (InitializeAdc idW idB st0 nv0) in
  ReadBatterySense s.1
    = default 0 (last (map (battery_published w) (battery_inputs ops)))
  /\ ReadLightSense s.1
     = default 0 (last (map (light_published w) (light_inputs ops)))
  /\ ReadHardwareConfiguration s.1
     = default 0 (last (map (fun hw => AdcCountsToVoltage w (ADC12MEM hw))
                            (hardware_cfg_inputs ops))).
Proof.
  intros s.
  destruct (InitializeAdc_fields idW idB st0 nv0)
    as (Hh & Hb & Hl & _).
  split; [|split].
  - destruct (battery_view_reads w s.1
                (battery_cycles w (battery_inputs ops)
                   (InitializeAdc idW idB st0 nv0).1)) as [-> _];
      [now apply run_ops_battery_view|].
    unfold ReadBatterySense. now rewrite battery_cycles_reading, Hb.
  - destruct (light_view_reads w s.1
                (light_cycles w (light_inputs ops)
                   (InitializeAdc idW idB st0 nv0).1)) as [-> _];
      [now apply run_ops_light_view|].
    unfold ReadLightSense. now rewrite light_cycles_reading, Hl.
  - unfold ReadHardwareConfiguration, s. now rewrite run_ops_hardware_cfg, Hh.
Qed.

(** ** More on LowBatteryMonitor *)

(** What an evaluation without power-good does, in closed form. *)
Lemma LowBatteryMonitor_not_charging w env st :
  QueryPowerGood env = false ->
  let avg := ReadBatterySenseAverage w st in
  let fb := (avg <? LowBatteryBtOffLevel st)
            && (LowBatteryBtOffMessageSent st =? 0) in
  let fw := (avg <? LowBatteryWarningLevel st)
            && (LowBatteryWarningMessageSent st =? 0) in
  let r := LowBatteryMonitor w env st in
  r.1 = set_latches (if fw then 1 else LowBatteryWarningMessageSent st)
                    (if fb then 1 else LowBatteryBtOffMessageSent st) st
  /\ routed r.2 = (if fb then routed (BtOff_group env avg) else [])
                  ++ (if fw then routed (Warning_group env avg) else []).
Proof.
  intros Hpg avg fb fw r. subst r. unfold LowBatteryMonitor. rewrite Hpg.
  fold avg. fold fb.
  destruct fb; cbn [fst snd set_latches LowBatteryWarningLevel
                    LowBatteryWarningMessageSent LowBatteryBtOffMessageSent];
    fold fw; destruct fw; cbn [fst snd];
    rewrite ?routed_app; unfold avg; rewrite ?routed_debug;
    (split; [|reflexivity]); try reflexivity.
  now destruct st.
Qed.

Lemma set_latches_reads w a b st :
  ReadBatterySenseAverage w (set_latches a b st) = ReadBatterySenseAverage w st
  /\ LowBatteryWarningLevel (set_latches a b st) = LowBatteryWarningLevel st
  /\ LowBatteryBtOffLevel (set_latches a b st) = LowBatteryBtOffLevel st.
Proof. repeat split. Qed.

Lemma set_latches_twice a b a' b' st :
  set_latches a' b' (set_latches a b st) = set_latches a' b' st.
Proof. reflexivity. Qed.

(** X6.  Evaluating LowBatteryMonitor a second time, with the same
    power-good signal and before any new battery cycle or threshold change,
    routes no message and leaves the state the first evaluation produced :
    an alert that was just sent, or a radio that was just resumed, is not
    repeated. *)
Theorem X6_second_evaluation_is_silent w env env' st :
  QueryPowerGood env' = QueryPowerGood env ->
  let first := LowBatteryMonitor w env st in
  let second := LowBatteryMonitor w env' first.1 in
  routed second.2 = [] /\ second.1 = first.1.
Proof.
  intros Hsame first second. destruct (QueryPowerGood env) eqn:Hpg.
  - destruct (LowBatteryMonitor_power_good w env st Hpg) as [H1 _].
    destruct (LowBatteryMonitor_power_good w env' first.1 Hsame) as [H2 H3].
    fold first in H1. fold second in H2, H3. rewrite H1 in H2, H3.
    cbn in H3. split; [exact H3|]. now rewrite H2, H1.
  - destruct (LowBatteryMonitor_not_charging w env st Hpg) as [H1 _].
    destruct (LowBatteryMonitor_not_charging w env' first.1 Hsame) as [H2 H3].
    fold first in H1. fold second in H2, H3.
    rewrite H1 in H2, H3.
    destruct (set_latches_reads w
                (if (ReadBatterySenseAverage w st <? LowBatteryWarningLevel st)
                    && (LowBatteryWarningMessageSent st =? 0)
                 then 1 else LowBatteryWarningMessageSent st)
                (if (ReadBatterySenseAverage w st <? LowBatteryBtOffLevel st)
                    && (LowBatteryBtOffMessageSent st =? 0)
                 then 1 else LowBatteryBtOffMessageSent st) st)
      as (Ha & Hlw & Hlb).
    rewrite Ha, Hlw, Hlb in H2, H3.
    cbn [LowBatteryWarningMessageSent LowBatteryBtOffMessageSent set_latches]
      in H2, H3.
    rewrite set_latches_twice in H2.
    assert (Hfb : (ReadBatterySenseAverage w st <? LowBatteryBtOffLevel st)
                  && ((if (ReadBatterySenseAverage w st <? LowBatteryBtOffLevel st)
                          && (LowBatteryBtOffMessageSent st =? 0)
                       then 1 else LowBatteryBtOffMessageSent st) =? 0) = false).
    { destruct (_ <? LowBatteryBtOffLevel st); [cbn [andb]|reflexivity].
      destruct (Z.eqb_spec (LowBatteryBtOffMessageSent st) 0) as [|Hne];
        [reflexivity|]. now apply Z.eqb_neq. }
    assert (Hfw : (ReadBatterySenseAverage w st <? LowBatteryWarningLevel st)
                  && ((if (ReadBatterySenseAverage w st <? LowBatteryWarningLevel st)
                          && (LowBatteryWarningMessageSent st =? 0)
                       then 1 else LowBatteryWarningMessageSent st) =? 0) = false).
    { destruct (_ <? LowBatteryWarningLevel st); [cbn [andb]|reflexivity].
      destruct (Z.eqb_spec (LowBatteryWarningMessageSent st) 0) as [|Hne];
        [reflexivity|]. now apply Z.eqb_neq. }
    rewrite Hfb, Hfw in H2, H3. split; [exact H3|]. now rewrite H2, H1.
Qed.

Lemma routed_WaitForAdcBusy polls : routed (WaitForAdcBusy polls) = [].
Proof.
  unfold WaitForAdcBusy. rewrite !routed_app. cbn.
  induction (seq 0 polls); [reflexivity|]. cbn. assumption.
Qed.

Lemma routed_cycles w hw cal st :
  routed (HardwareCfgCycle w hw st).2 = []
  /\ routed (BatterySenseCycle w hw cal st).2 = []
  /\ routed (LightSenseCycle w hw st).2 = [].
Proof.
  repeat split; cbn [HardwareCfgCycle BatterySenseCycle LightSenseCycle
                     FinishHardwareCfgCycle FinishBatterySenseCycle
                     FinishLightSenseCycle snd];
    rewrite !routed_app, routed_WaitForAdcBusy; reflexivity.
Qed.

Lemma exec_op_cycle_routed w idW idB o s :
  is_monitor o = false -> routed (exec_op w idW idB o s).2 = [].
Proof.
  destruct s as [st nv], o as [hw|hw cal|hw|env|mem p]; cbn [is_monitor];
    intros H; try discriminate; try reflexivity.
  - change (exec_op w idW idB (OpHardwareCfgCycle hw) (st, nv)).2
      with (HardwareCfgCycle w hw st).2.
    apply (routed_cycles w hw (MkCal false 0) st).
  - change (exec_op w idW idB (OpBatterySenseCycle hw cal) (st, nv)).2
      with (BatterySenseCycle w hw cal st).2.
    apply (routed_cycles w hw cal st).
  - change (exec_op w idW idB (OpLightSenseCycle hw) (st, nv)).2
      with (LightSenseCycle w hw st).2.
    apply (routed_cycles w hw (MkCal false 0) st).
Qed.

Lemma run_log_app w idW idB ops1 ops2 s :
  run_log w idW idB (ops1 ++ ops2) s
  = run_log w idW idB ops1 s
    ++ run_log w idW idB ops2 (run_ops w idW idB ops1 s).
Proof.
  revert s. induction ops1 as [|o ops1 IH]; intros s; [reflexivity|].
  cbn [app run_log run_ops fold_left]. rewrite IH, <- app_assoc. reflexivity.
Qed.

Lemma count_type_app ty l1 l2 :
  count_type ty (l1 ++ l2) = (count_type ty l1 + count_type ty l2)%nat.
Proof.
  unfold count_type, routed_types. now rewrite routed_app, map_app, count_occ_app.
Qed.

(** One call that does not see power-good : every alert it routes is paid
    for by a latch that goes from clear to set. *)
Lemma exec_op_budget w idW idB o s :
  power_good_op o = false ->
  let r := exec_op w idW idB o s in
  (count_type LowBatteryBtOffMsgHost r.2 + btoff_budget r.1.1
   = btoff_budget s.1)%nat
  /\ (count_type LowBatteryBtOffMsg r.2 + btoff_budget r.1.1
      = btoff_budget s.1)%nat
  /\ (count_type LowBatteryWarningMsgHost r.2 + warning_budget r.1.1
      = warning_budget s.1)%nat
  /\ (count_type LowBatteryWarningMsg r.2 + warning_budget r.1.1
      = warning_budget s.1)%nat
  /\ (count_type SetVibrateMode r.2 + btoff_budget r.1.1 + warning_budget r.1.1
      = btoff_budget s.1 + warning_budget s.1)%nat
  /\ count_type TurnRadioOnMsg r.2 = 0%nat.
Proof.
  intros Hpg r. subst r. destruct s as [st nv].
  destruct o as [hw|hw cal|hw|env|mem p]; cbn [power_good_op] in Hpg.
  - unfold count_type, routed_types.
    rewrite exec_op_cycle_routed by reflexivity. cbn. repeat split; lia.
  - unfold count_type, routed_types.
    rewrite exec_op_cycle_routed by reflexivity. cbn. repeat split; lia.
  - unfold count_type, routed_types.
    rewrite exec_op_cycle_routed by reflexivity. cbn. repeat split; lia.
  - cbn [exec_op fst snd].
    destruct (LowBatteryMonitor_not_charging w env st Hpg) as [Hst Hlog].
    destruct (LowBatteryMonitor w env st) as [st' log]. cbn [fst snd] in *.
    unfold count_type, routed_types, btoff_budget, warning_budget.
    rewrite Hlog, Hst.
    cbn [LowBatteryWarningMessageSent LowBatteryBtOffMessageSent set_latches
         fst snd].
    destruct (ReadBatterySenseAverage w st <? LowBatteryBtOffLevel st),
             (ReadBatterySenseAverage w st <? LowBatteryWarningLevel st),
             (LowBatteryBtOffMessageSent st =? 0) eqn:Eb,
             (LowBatteryWarningMessageSent st =? 0) eqn:Ew;
      cbn; rewrite ?Eb, ?Ew; cbn; repeat split; reflexivity.
  - cbn. repeat split; lia.
Qed.

(** X7.  Over any sequence of calls in which no evaluation sees power-good
    (battery and light cycles, threshold changes and evaluations in any
    order, the average moving freely across the thresholds) each of the four
    alert messages is routed at most once, and not at all when its latch was
    already set at the start; at most two vibration messages are routed and
    no TurnRadioOn. *)
Theorem X7_each_alert_at_most_once w idW idB ops s :
  Forall (fun o => power_good_op o = false) ops ->
  let log := run_log w idW idB ops s in
  (count_type LowBatteryBtOffMsgHost log <= btoff_budget s.1)%nat
  /\ (count_type LowBatteryBtOffMsg log <= btoff_budget s.1)%nat
  /\ (count_type LowBatteryWarningMsgHost log <= warning_budget s.1)%nat
  /\ (count_type LowBatteryWarningMsg log <= warning_budget s.1)%nat
  /\ (count_type SetVibrateMode log <= btoff_budget s.1 + warning_budget s.1)%nat
  /\ count_type TurnRadioOnMsg log = 0%nat
  /\ (btoff_budget s.1 <= 1)%nat /\ (warning_budget s.1 <= 1)%nat.
Proof.
  intros Hall log. subst log.
  assert (Hb : forall st, (btoff_budget st <= 1)%nat)
    by (intros st; unfold btoff_budget; destruct (_ =? _); lia).
  assert (Hw : forall st, (warning_budget st <= 1)%nat)
    by (intros st; unfold warning_budget; destruct (_ =? _); lia).
  enough (H :
    (count_type LowBatteryBtOffMsgHost (run_log w idW idB ops s)
       + btoff_budget (run_ops w idW idB ops s).1 = btoff_budget s.1)%nat
    /\ (count_type LowBatteryBtOffMsg (run_log w idW idB ops s)
        + btoff_budget (run_ops w idW idB ops s).1 = btoff_budget s.1)%nat
    /\ (count_type LowBatteryWarningMsgHost (run_log w idW idB ops s)
        + warning_budget (run_ops w idW idB ops s).1 = warning_budget s.1)%nat
    /\ (count_type LowBatteryWarningMsg (run_log w idW idB ops s)
        + warning_budget (run_ops w idW idB ops s).1 = warning_budget s.1)%nat
    /\ (count_type SetVibrateMode (run_log w idW idB ops s)
        + btoff_budget (run_ops w idW idB ops s).1
        + warning_budget (run_ops w idW idB ops s).1
        = btoff_budget s.1 + warning_budget s.1)%nat
    /\ count_type TurnRadioOnMsg (run_log w idW idB ops s) = 0%nat).
  { destruct H as (H1 & H2 & H3 & H4 & H5 & H6).
    specialize (Hb s.1). specialize (Hw s.1). repeat split; lia. }
  clear Hb Hw. revert s.
  induction Hall as [|o ops Ho _ IH]; intros s.
  - cbn. unfold count_type. cbn. repeat split; lia.
  - cbn [run_log run_ops fold_left].
    change (fold_left _ ops ?x) with (run_ops w idW idB ops x).
    rewrite !count_type_app.
    destruct (exec_op_budget w idW idB o s Ho) as (A1 & A2 & A3 & A4 & A5 & A6).
    destruct (IH (exec_op w idW idB o s).1) as (B1 & B2 & B3 & B4 & B5 & B6).
    cbn zeta in *. repeat split; lia.
Qed.

(** ** Thresholds, latches and re-initialisation *)

Lemma exec_op_keeps_levels w idW idB o s :
  is_set_levels o = false ->
  LowBatteryWarningLevel (exec_op w idW idB o s).1.1 = LowBatteryWarningLevel s.1
  /\ LowBatteryBtOffLevel (exec_op w idW idB o s).1.1 = LowBatteryBtOffLevel s.1
  /\ (exec_op w idW idB o s).1.2 = s.2.
Proof.
  destruct s as [st nv], o as [hw|hw cal|hw|env|mem p]; cbn [is_set_levels];
    intros H; try discriminate; try (repeat split; reflexivity).
  cbn [exec_op fst snd].
  destruct (LowBatteryMonitor_frame w env st) as (a & b & Hf).
  destruct (LowBatteryMonitor w env st) as [st' log]. cbn [fst snd] in *.
  now rewrite Hf.
Qed.

Lemma run_ops_keeps_levels w idW idB ops s :
  Forall (fun o => is_set_levels o = false) ops ->
  LowBatteryWarningLevel (run_ops w idW idB ops s).1 = LowBatteryWarningLevel s.1
  /\ LowBatteryBtOffLevel (run_ops w idW idB ops s).1 = LowBatteryBtOffLevel s.1
  /\ (run_ops w idW idB ops s).2 = s.2.
Proof.
  intros Hall. revert s. induction Hall as [|o ops Ho _ IH]; intros s;
    [repeat split|].
  cbn [run_ops fold_left]. change (fold_left _ ops ?x) with (run_ops w idW idB ops x).
  destruct (IH (exec_op w idW idB o s).1) as (-> & -> & ->).
  now apply exec_op_keeps_levels.
Qed.

Lemma exec_op_keeps_latches w idW idB o s :
  is_monitor o = false ->
  LowBatteryWarningMessageSent (exec_op w idW idB o s).1.1
  = LowBatteryWarningMessageSent s.1
  /\ LowBatteryBtOffMessageSent (exec_op w idW idB o s).1.1
     = LowBatteryBtOffMessageSent s.1.
Proof.
  destruct s as [st nv], o as [hw|hw cal|hw|env|mem p]; cbn [is_monitor];
    intros H; try discriminate; split; reflexivity.
Qed.

Lemma InitializeLowBatteryLevels_loaded idW idB st (nv : gmap Z Z) :
  let r := InitializeLowBatteryLevels idW idB st nv in
  r.2 !! idW = Some (LowBatteryWarningLevel r.1)
  /\ r.2 !! idB = Some (LowBatteryBtOffLevel r.1).
Proof.
  unfold InitializeLowBatteryLevels, OsalNvItemInit.
  destruct (nv !! idW) as [a|] eqn:Ha.
  - destruct (nv !! idB) as [b|] eqn:Hb; cbn.
    + auto.
    + split; [|apply lookup_insert_eq].
      rewrite lookup_insert_ne; [exact Ha | congruence].
  - destruct (decide (idW = idB)) as [<- | Hne].
    + rewrite lookup_insert_eq. cbn. split; apply lookup_insert_eq.
    + rewrite lookup_insert_ne by exact Hne.
      destruct (nv !! idB) as [b|] eqn:Hb; cbn.
      * split; [apply lookup_insert_eq|].
        now rewrite lookup_insert_ne by exact Hne.
      * split; [|apply lookup_insert_eq].
        rewrite lookup_insert_ne by congruence. apply lookup_insert_eq.
Qed.

Lemma InitializeAdc_unfold idW idB st nv :
  InitializeAdc idW idB st nv =
    let r := InitializeLowBatteryLevels idW idB st nv in
    ({| HardwareConfiguration := 0; BatterySense := 0; LightSense := 0;
        BatterySenseSamples := BatterySenseSamples st;
        LightSenseSamples := LightSenseSamples st;
        BatterySenseSampleIndex := 0; LightSenseSampleIndex := 0;
        BatterySenseAverageReady := 0; LightSenseAverageReady := 0;
        LowBatteryWarningMessageSent := 0; LowBatteryBtOffMessageSent := 0;
        LowBatteryWarningLevel := LowBatteryWarningLevel r.1;
        LowBatteryBtOffLevel := LowBatteryBtOffLevel r.1 |}, r.2).
Proof.
  unfold InitializeAdc, InitializeLowBatteryLevels, OsalNvItemInit.
  destruct (nv !! idW); cbn;
    match goal with |- context [?m !! idB] => destruct (m !! idB) end;
    reflexivity.
Qed.

(** X11.  InitializeAdc is idempotent : run a second time on the state and
    the store the first run produced, whatever they were before, it gives
    the same state and the same store (the thresholds the first run loaded
    or defaulted are the ones the second run reads back). *)
Theorem X11_initialize_twice idW idB st nv :
  let once := InitializeAdc idW idB st nv in
  InitializeAdc idW idB once.1 once.2 = once.
Proof.
  intros once. subst once. rewrite (InitializeAdc_unfold idW idB st nv).
  cbn zeta.
  destruct (InitializeLowBatteryLevels_loaded idW idB st nv) as [HW HB].
  cbn zeta in HW, HB.
  set (r := InitializeLowBatteryLevels idW idB st nv) in *.
  rewrite InitializeAdc_unfold. cbn [fst snd]. cbn zeta.
  rewrite (InitializeLowBatteryLevels_stored idW idB _ _ _ _ HW HB).
  reflexivity.
Qed.

(** X10.  Thresholds set by SetBatteryLevels survive a restart : after
    SetBatteryLevels with bytes [wb] and [bb], any sequence of calls other
    than SetBatteryLevels, and then InitializeAdc, the thresholds are again
    wb*100 and bb*100, as they were all along, while both latches, both
    ready flags and the three readings are back to zero. *)
Theorem X10_thresholds_survive_restart w idW idB mem p wb bb st nv ops :
  16 <= w -> idW <> idB ->
  mem p = wb -> mem (p + 1) = bb -> 0 <= wb <= 255 -> 0 <= bb <= 255 ->
  Forall (fun o => is_set_levels o = false) ops ->
  let before := run_ops w idW idB ops (SetBatteryLevels w idW idB mem p st nv) in
  let after := InitializeAdc idW idB before.1 before.2 in
  (LowBatteryWarningLevel before.1 = wb * 100
   /\ LowBatteryBtOffLevel before.1 = bb * 100)
  /\ (LowBatteryWarningLevel after.1 = wb * 100
      /\ LowBatteryBtOffLevel after.1 = bb * 100)
  /\ LowBatteryWarningMessageSent after.1 = 0
  /\ LowBatteryBtOffMessageSent after.1 = 0
  /\ ReadBatterySenseAverage w after.1 = 0
  /\ ReadLightSenseAverage w after.1 = 0
  /\ ReadHardwareConfiguration after.1 = 0.
Proof.
  intros Hw Hne Hwb Hbb Hrw Hrb Hall before after.
  destruct (run_ops_keeps_levels w idW idB ops
              (SetBatteryLevels w idW idB mem p st nv) Hall) as (HW & HB & Hnv).
  fold before in HW, HB, Hnv.
  rewrite SetBatteryLevels_unfold in HW, HB, Hnv. cbn [fst snd] in HW, HB, Hnv.
  rewrite (load8_byte mem p wb) in HW, Hnv by assumption.
  rewrite (load8_byte mem (p + 1) bb) in HB, Hnv by assumption.
  assert (Hu1 : uint w (wb * 100) = wb * 100) by (apply uint_small; lia).
  assert (Hu2 : uint w (bb * 100) = bb * 100) by (apply uint_small; lia).
  rewrite Hu1 in HW, Hnv. rewrite Hu2 in HB, Hnv.
  cbn in HW, HB.
  assert (HsW : before.2 !! idW = Some (wb * 100)).
  { rewrite Hnv, lookup_insert_ne by congruence. apply lookup_insert_eq. }
  assert (HsB : before.2 !! idB = Some (bb * 100)).
  { rewrite Hnv. apply lookup_insert_eq. }
  split; [now split|].
  subst after. rewrite InitializeAdc_unfold. cbn zeta.
  rewrite (InitializeLowBatteryLevels_stored idW idB _ _ _ _ HsW HsB).
  cbn. repeat split.
Qed.

(** The radio-off alert is never latched alone. *)
Lemma exec_op_order w idW idB o s :
  16 <= w ->
  levels_ordered_op o = true ->
  LowBatteryBtOffLevel s.1 <= LowBatteryWarningLevel s.1 ->
  (LowBatteryBtOffMessageSent s.1 <> 0 -> LowBatteryWarningMessageSent s.1 <> 0) ->
  let s' := (exec_op w idW idB o s).1 in
  LowBatteryBtOffLevel s'.1 <= LowBatteryWarningLevel s'.1
  /\ (LowBatteryBtOffMessageSent s'.1 <> 0 ->
      LowBatteryWarningMessageSent s'.1 <> 0).
Proof.
  intros Hw Hord Hlev Hlat s'. subst s'.
  destruct s as [st nv]. cbn [fst snd] in Hlev, Hlat.
  destruct o as [hw|hw cal|hw|env|mem p]; try (now split).
  - cbn [exec_op fst snd]. destruct (QueryPowerGood env) eqn:Hpg.
    + destruct (LowBatteryMonitor_power_good w env st Hpg) as [Hst _].
      destruct (LowBatteryMonitor w env st) as [st' log]. cbn [fst snd] in *.
      rewrite Hst. cbn. split; [exact Hlev | congruence].
    + destruct (LowBatteryMonitor_not_charging w env st Hpg) as [Hst _].
      destruct (LowBatteryMonitor w env st) as [st' log]. cbn [fst snd] in *.
      rewrite Hst. cbn. split; [exact Hlev|].
      destruct (Z.ltb_spec (ReadBatterySenseAverage w st) (LowBatteryBtOffLevel st)),
               (Z.ltb_spec (ReadBatterySenseAverage w st) (LowBatteryWarningLevel st)),
               (Z.eqb_spec (LowBatteryBtOffMessageSent st) 0),
               (Z.eqb_spec (LowBatteryWarningMessageSent st) 0);
        cbn; intros; try lia; auto.
  - cbn [exec_op levels_ordered_op] in *. rewrite SetBatteryLevels_unfold.
    cbn. split; [|exact Hlat]. apply Z.leb_le in Hord.
    assert (Hb : forall a, 0 <= load8 mem a <= 255)
      by (intros a; unfold load8, uchar;
          pose proof (Z.mod_pos_bound (mem a) 256); lia).
    pose proof (Hb p). pose proof (Hb (p + 1)).
    rewrite !uint_small by lia. lia.
Qed.

(** X8.  As long as the thresholds are ordered (BtOffLevel at most
    WarningLevel, as the defaults are, and every SetBatteryLevels call keeps
    its BtOff byte at most its Warning byte), no sequence of calls reaches a
    state where the BtOff latch is set and the Warning latch is clear : the
    radio-off alert is never sent without the warning having been sent, in
    the same evaluation or before. *)
Theorem X8_btoff_never_without_warning w idW idB ops s :
  16 <= w ->
  Forall (fun o => levels_ordered_op o = true) ops ->
  LowBatteryBtOffLevel s.1 <= LowBatteryWarningLevel s.1 ->
  (LowBatteryBtOffMessageSent s.1 <> 0 -> LowBatteryWarningMessageSent s.1 <> 0) ->
  let s' := run_ops w idW idB ops s in
  LowBatteryBtOffLevel s'.1 <= LowBatteryWarningLevel s'.1
  /\ (LowBatteryBtOffMessageSent s'.1 <> 0 ->
      LowBatteryWarningMessageSent s'.1 <> 0).
Proof.
  intros Hw Hall. revert s. induction Hall as [|o ops Ho _ IH]; intros s Hlev Hlat;
    [now split|].
  cbn [run_ops fold_left]. change (fold_left _ ops ?x) with (run_ops w idW idB ops x).
  destruct (exec_op_order w idW idB o s Hw Ho Hlev Hlat) as [H1 H2].
  exact (IH _ H1 H2).
Qed.

(** ** What a cycle does to the hardware *)

Lemma lpm_run_app b l1 l2 :
  lpm_run b (l1 ++ l2) = lpm_run b l1 ≫= (fun b' => lpm_run b' l2).
Proof.
  revert b. induction l1 as [|e l1 IH]; intros b; [reflexivity|].
  destruct e; cbn [app lpm_run]; try apply IH; destruct b; cbn; auto.
Qed.

Lemma power_run_app a p l1 l2 :
  power_run a p (l1 ++ l2)
  = power_run a p l1 ≫= (fun r => power_run r.1 r.2 l2).
Proof.
  revert a p. induction l1 as [|e l1 IH]; intros a p; [reflexivity|].
  destruct e; cbn [app power_run]; try apply IH; destruct a, p; cbn; auto.
Qed.

Lemma lpm_run_wait polls : lpm_run false (WaitForAdcBusy polls) = Some false.
Proof.
  unfold WaitForAdcBusy. cbn [app lpm_run]. rewrite lpm_run_app.
  assert (H : lpm_run true
                (flat_map (fun _ : nat => [READ_BUSY; vTaskDelay 0]) (seq 0 polls))
              = Some true).
  { induction (seq 0 polls); [reflexivity|]. cbn. assumption. }
  now rewrite H.
Qed.

Lemma power_run_wait a p polls :
  power_run a p (WaitForAdcBusy polls) = Some (a, p).
Proof.
  unfold WaitForAdcBusy. cbn [app power_run]. rewrite power_run_app.
  assert (H : power_run a p
                (flat_map (fun _ : nat => [READ_BUSY; vTaskDelay 0]) (seq 0 polls))
              = Some (a, p)).
  { induction (seq 0 polls); [reflexivity|]. cbn. assumption. }
  now rewrite H.
Qed.

Lemma channel_wait ch polls :
  Forall (fun e => event_channel e = None \/ event_channel e = Some ch)
         (WaitForAdcBusy polls).
Proof.
  unfold WaitForAdcBusy. apply Forall_app_2; [repeat constructor; now left|].
  apply Forall_app_2; [|repeat constructor; now left].
  induction (seq 0 polls); cbn; repeat constructor; try (now left). assumption.
Qed.

Ltac one_channel :=
  repeat first
    [ apply channel_wait
    | apply Forall_nil_2
    | apply Forall_app_2
    | apply Forall_cons_2; [first [now left | now right]|] ].

(** X12.  In the log of every execution of the three cycles the sensor
    supply is switched on before the converter is enabled, the result
    register is read while the converter is still enabled, and both the
    converter and the sensor supply are switched off again when the cycle
    ends; every event that names a channel names the channel of the cycle,
    which is the one whose start address is set and whose result register is
    read : a cycle never touches the channel of another. *)
Theorem X12_cycle_powers_its_own_channel w hw cal st :
  let logs := [(HARDWARE_CFG, (HardwareCfgCycle w hw st).2);
               (BATTERY_SENSE, (BatterySenseCycle w hw cal st).2);
               (LIGHT_SENSE, (LightSenseCycle w hw st).2)] in
  Forall (fun cl : channel * list event =>
            power_run false false cl.2 = Some (false, false)
            /\ Forall (fun e => event_channel e = None
                                \/ event_channel e = Some cl.1) cl.2
            /\ (SET_START_ADDR cl.1 ∈ cl.2)
            /\ (READ_ADC12MEM cl.1 ∈ cl.2)) logs.
Proof.
  intros logs. subst logs.
  repeat apply Forall_cons_2; [| | |apply Forall_nil_2];
    cbn [fst snd HardwareCfgCycle BatterySenseCycle LightSenseCycle
         FinishHardwareCfgCycle FinishBatterySenseCycle FinishLightSenseCycle];
    unfold StartHardwareCfgConversion, StartBatterySenseConversion,
      StartLightSenseConversion, EndAdcCycle;
    (split; [|split; [|split]]).
  all: try (cbn [app power_run orb negb]; rewrite power_run_app, power_run_wait;
            reflexivity).
  all: try (one_channel; fail).
  all: rewrite !elem_of_app, !elem_of_cons; tauto.
Qed.

(** X13.  In the log of every execution of the three cycles, whatever the
    number of busy polls, every vTaskDelay (the yields of the busy wait and
    the settle delay of the light sensor) is made between a
    TaskDelayLpmDisable and the matching TaskDelayLpmEnable, the two calls
    are never nested, and the low-power mode is enabled again when the cycle
    returns. *)
Theorem X13_delays_run_with_low_power_disabled w hw cal st :
  lpm_run false (HardwareCfgCycle w hw st).2 = Some false
  /\ lpm_run false (BatterySenseCycle w hw cal st).2 = Some false
  /\ lpm_run false (LightSenseCycle w hw st).2 = Some false
  /\ (forall polls (prefix : list event) ticks rest,
        WaitForAdcBusy polls = prefix ++ vTaskDelay ticks :: rest ->
        lpm_run false prefix = Some true).
Proof.
  split; [|split; [|split]].
  1-3: cbn [fst snd HardwareCfgCycle BatterySenseCycle LightSenseCycle
            FinishHardwareCfgCycle FinishBatterySenseCycle FinishLightSenseCycle];
       unfold StartHardwareCfgConversion, StartBatterySenseConversion,
         StartLightSenseConversion, EndAdcCycle;
       cbn [app lpm_run]; rewrite lpm_run_app, lpm_run_wait; reflexivity.
  intros polls prefix ticks rest Heq.
  pose proof (lpm_run_wait polls) as Hrun. rewrite Heq, lpm_run_app in Hrun.
  destruct (lpm_run false prefix) as [[|]|]; [reflexivity | | discriminate].
  cbn in Hrun. discriminate.
Qed.

(** ** The task system makes progress *)

(** X14.  The gate never deadlocks : in every reachable state in which some
    task is inside a cycle function, some such task can make its next step
    (execute its next event, or return when its log is exhausted).  When the
    gate is held that task is the holder, whose next event is a converter
    access or the give; when it is free any waiting task can take it. *)
Theorem X14_gate_never_deadlocks w σ t0 tr0 :
  reachable w σ ->
  pending σ !! t0 = Some tr0 ->
  exists t tr σ',
    pending σ !! t = Some tr
    /\ sys_step w σ σ'
    /\ (holder σ = None \/ holder σ = Some t)
    /\ ((tr = [] /\ pending σ' !! t = None)
        \/ (exists e rest, tr = e :: rest /\ pending σ' !! t = Some rest)).
Proof.
  intros Hr Hp0. pose proof (reachable_gate_inv w σ Hr) as Hinv.
  destruct (holder σ) as [h|] eqn:Hh.
  - pose proof (Hinv h) as Ht.
    destruct (pending σ !! h) as [tr|] eqn:Hp; [|contradiction].
    destruct Ht as [[_ ?] | [[(body & -> & Hall) _] | [_ ?]]]; try contradiction.
    destruct body as [|e body].
    + exists h, [xSemaphoreGive], (MkSys None (<[h := []]> (pending σ))).
      split; [exact Hp|]. split; [now apply (step_give w h [] σ)|].
      split; [now right|]. right. exists xSemaphoreGive, [].
      split; [reflexivity|]. cbn. apply lookup_insert_eq.
    + exists h, (e :: body ++ [xSemaphoreGive]),
        (MkSys (holder σ) (<[h := body ++ [xSemaphoreGive]]> (pending σ))).
      inversion Hall as [|? ? He _]; subst.
      split; [exact Hp|]. split.
      * apply (step_event w h e (body ++ [xSemaphoreGive]) σ Hp);
          intros ->; discriminate He.
      * split; [now right|]. right. exists e, (body ++ [xSemaphoreGive]).
        split; [reflexivity|]. cbn. apply lookup_insert_eq.
  - pose proof (Hinv t0) as Ht. rewrite Hp0 in Ht.
    destruct Ht as [[(body & -> & _) _] | [[_ ?] | [-> _]]]; [|congruence|].
    + exists t0, (xSemaphoreTake :: body ++ [xSemaphoreGive]),
        (MkSys (Some t0) (<[t0 := body ++ [xSemaphoreGive]]> (pending σ))).
      split; [exact Hp0|]. split; [now apply step_take|].
      split; [now left|]. right. exists xSemaphoreTake, (body ++ [xSemaphoreGive]).
      split; [reflexivity|]. cbn. apply lookup_insert_eq.
    + exists t0, [], (MkSys (holder σ) (delete t0 (pending σ))).
      split; [exact Hp0|]. split; [now apply step_return|].
      split; [now left|]. left. split; [reflexivity|]. cbn. apply lookup_delete_eq.
Qed.

(** ** Bounds on what the averages and the monitor can do *)

Lemma SampleTotal_range w (l : list Z) : 0 <= w -> 0 <= SampleTotal w l < 2 ^ w.
Proof.
  intros Hw. unfold SampleTotal.
  change (seq 0 (Z.to_nat MAX_SAMPLES)) with (seq 0 9 ++ [9%nat]).
  rewrite fold_left_app. cbn [fold_left]. now apply uint_range.
Qed.

(** X15.  Once its ready latch is set an average is at most
    (2^w - 1) / 10, whatever the ten samples are : on the 16-bit target
    ReadBatterySenseAverage and ReadLightSenseAverage never return more than
    6553, although a single light sample can be 24993. *)
Theorem X15_ready_average_is_capped w st :
  0 <= w ->
  (BatterySenseAverageReady st <> 0 ->
   0 <= ReadBatterySenseAverage w st <= (2 ^ w - 1) / 10)
  /\ (LightSenseAverageReady st <> 0 ->
      0 <= ReadLightSenseAverage w st <= (2 ^ w - 1) / 10).
Proof.
  intros Hw. unfold ReadBatterySenseAverage, ReadLightSenseAverage, MAX_SAMPLES.
  split; intros Hr.
  - destruct (Z.eqb_spec (BatterySenseAverageReady st) 0); [contradiction|].
    pose proof (SampleTotal_range w (BatterySenseSamples st) Hw).
    split; [apply Z.div_pos; lia | apply Z.div_le_mono; lia].
  - destruct (Z.eqb_spec (LightSenseAverageReady st) 0); [contradiction|].
    pose proof (SampleTotal_range w (LightSenseSamples st) Hw).
    split; [apply Z.div_pos; lia | apply Z.div_le_mono; lia].
Qed.

Lemma X15_ready_average_is_capped_witness :
  let st := light_cycles 16 (replicate 10 (MkHw 4095 0))
              (InitializeAdc 1 2 boot_state ∅).1 in
  0 <= 16
  /\ LightSenseAverageReady st <> 0
  /\ LightSense st = 24993
  /\ 0 <= ReadLightSenseAverage 16 st <= 6553.
Proof.
  intros st.
  assert (H1 : 0 <= 16) by lia.
  assert (H2 : LightSenseAverageReady st <> 0) by (vm_compute; discriminate).
  split; [exact H1|]. split; [exact H2|]. split; [vm_compute; reflexivity|].
  exact (proj2 (X15_ready_average_is_capped 16 st H1) H2).
Defined.

Lemma ReadBatterySenseAverage_nonneg w st :
  0 <= w -> state_ok w st -> 0 <= ReadBatterySenseAverage w st.
Proof.
  intros Hw Hok. unfold ReadBatterySenseAverage, MAX_SAMPLES.
  destruct (_ =? 0).
  - apply (ok_battery _ _ Hok).
  - pose proof (SampleTotal_range w (BatterySenseSamples st) Hw).
    apply Z.div_pos; lia.
Qed.

(** X9.  A threshold byte of 0 switches its alert off : after
    SetBatteryLevels with a BtOff byte of 0, and any sequence of calls other
    than SetBatteryLevels, no evaluation routes a BtOff message or sets the
    BtOff latch it found clear, however low the average; likewise for a
    Warning byte of 0 (an unsigned average is never below 0). *)
Theorem X9_zero_threshold_disables_alert w idW idB mem p st nv ops env :
  16 <= w -> state_ok w st ->
  Forall (fun o => is_set_levels o = false) ops ->
  let s := run_ops w idW idB ops (SetBatteryLevels w idW idB mem p st nv) in
  let r := LowBatteryMonitor w env s.1 in
  (load8 mem (p + 1) = 0 ->
   count_type LowBatteryBtOffMsgHost r.2 = 0%nat
   /\ count_type LowBatteryBtOffMsg r.2 = 0%nat
   /\ (LowBatteryBtOffMessageSent s.1 = 0 -> LowBatteryBtOffMessageSent r.1 = 0))
  /\ (load8 mem p = 0 ->
      count_type LowBatteryWarningMsgHost r.2 = 0%nat
      /\ count_type LowBatteryWarningMsg r.2 = 0%nat
      /\ (LowBatteryWarningMessageSent s.1 = 0 ->
          LowBatteryWarningMessageSent r.1 = 0)).
Proof.
  intros Hw Hok Hall s r.
  destruct (run_ops_keeps_levels w idW idB ops
              (SetBatteryLevels w idW idB mem p st nv) Hall) as (HW & HB & _).
  fold s in HW, HB. rewrite SetBatteryLevels_unfold in HW, HB.
  cbn [fst snd set_levels LowBatteryWarningLevel LowBatteryBtOffLevel] in HW, HB.
  assert (Hok' : state_ok w s.1).
  { apply run_ops_state_ok; [lia|]. rewrite SetBatteryLevels_unfold. cbn [fst].
    apply set_levels_ok; [apply in_uint_uint; lia | apply in_uint_uint; lia | exact Hok]. }
  pose proof (ReadBatterySenseAverage_nonneg w s.1 ltac:(lia) Hok') as Havg.
  assert (Hz : uint w 0 = 0) by (apply uint_small; lia).
  subst r. unfold count_type, routed_types.
  destruct (QueryPowerGood env) eqn:Hpg.
  - destruct (LowBatteryMonitor_power_good w env s.1 Hpg) as [-> ->].
    split; intros _; (destruct (_ =? 0); cbn; repeat split; reflexivity).
  - destruct (LowBatteryMonitor_not_charging w env s.1 Hpg) as [-> ->].
    cbn [set_latches LowBatteryWarningMessageSent LowBatteryBtOffMessageSent].
    split; intros H0.
    + assert (HB0 : LowBatteryBtOffLevel s.1 = 0) by (rewrite HB, H0; exact Hz).
      rewrite HB0.
      destruct (Z.ltb_spec (ReadBatterySenseAverage w s.1) 0); [lia|].
      cbn [andb app]. destruct (_ && _); cbn; repeat split; tauto.
    + assert (HW0 : LowBatteryWarningLevel s.1 = 0) by (rewrite HW, H0; exact Hz).
      rewrite HW0.
      destruct (Z.ltb_spec (ReadBatterySenseAverage w s.1) 0); [lia|].
      cbn [andb]. rewrite app_nil_r. destruct (_ && _); cbn; repeat split; tauto.
Qed.

(** X16.  A power-good evaluation re-arms both alerts : whatever the latches
    were, the next evaluation without power-good that finds the average
    below both thresholds (no battery cycle or threshold change in between)
    routes the BtOff group and the Warning group again, after the
    power-good evaluation itself routed at most the single TurnRadioOn. *)
Theorem X16_power_good_rearms_alerts w env_on env_off st :
  QueryPowerGood env_on = true ->
  QueryPowerGood env_off = false ->
  ReadBatterySenseAverage w st < LowBatteryBtOffLevel st ->
  ReadBatterySenseAverage w st < LowBatteryWarningLevel st ->
  let charged := LowBatteryMonitor w env_on st in
  let r := LowBatteryMonitor w env_off charged.1 in
  (length (routed charged.2) <= 1)%nat
  /\ routed_types r.2 =
       [LowBatteryBtOffMsgHost; LowBatteryBtOffMsg; SetVibrateMode;
        LowBatteryWarningMsgHost; LowBatteryWarningMsg; SetVibrateMode]
  /\ LowBatteryBtOffMessageSent r.1 = 1
  /\ LowBatteryWarningMessageSent r.1 = 1.
Proof.
  intros Hon Hoff Hb Hwl charged r.
  destruct (LowBatteryMonitor_power_good w env_on st Hon) as [Hst Hlog].
  fold charged in Hst, Hlog.
  destruct (LowBatteryMonitor_both_crossed w env_off charged.1 Hoff)
    as [Hst' Hlog']; try (rewrite Hst; try reflexivity; assumption).
  fold r in Hst', Hlog'. split; [|split; [|split]].
  - rewrite Hlog. destruct (_ =? 0); cbn; lia.
  - unfold routed_types. rewrite Hlog'. reflexivity.
  - now rewrite Hst'.
  - now rewrite Hst'.
Qed.

Lemma X16_power_good_rearms_alerts_witness :
  let env_on := MkEnv false true (fun _ => 0) in
  let env_off := MkEnv false false (fun _ => 0) in
  let st := (LowBatteryMonitor 16 env_off
               (BatterySenseCycle 16 (MkHw 2000 0) (MkCal false 0)
                  (InitializeAdc 1 2 boot_state ∅).1).1).1 in
  QueryPowerGood env_on = true /\ QueryPowerGood env_off = false
  /\ ReadBatterySenseAverage 16 st < LowBatteryBtOffLevel st
  /\ ReadBatterySenseAverage 16 st < LowBatteryWarningLevel st
  /\ LowBatteryBtOffMessageSent st = 1
  /\ routed_types (LowBatteryMonitor 16 env_off
                     (LowBatteryMonitor 16 env_on st).1).2 =
       [LowBatteryBtOffMsgHost; LowBatteryBtOffMsg; SetVibrateMode;
        LowBatteryWarningMsgHost; LowBatteryWarningMsg; SetVibrateMode].
Proof.
  intros env_on env_off st.
  assert (H1 : QueryPowerGood env_on = true) by reflexivity.
  assert (H2 : QueryPowerGood env_off = false) by reflexivity.
  assert (H3 : ReadBatterySenseAverage 16 st < LowBatteryBtOffLevel st)
    by (vm_compute; reflexivity).
  assert (H4 : ReadBatterySenseAverage 16 st < LowBatteryWarningLevel st)
    by (vm_compute; reflexivity).
  repeat (split; [assumption|]). split; [vm_compute; reflexivity|].
  exact (proj1 (proj2 (X16_power_good_rearms_alerts 16 env_on env_off st
                         H1 H2 H3 H4))).
Defined.

(** X17.  Of two SetBatteryLevels calls in a row only the second counts :
    the thresholds in memory and the whole store are those of the second
    call made alone. *)
Theorem X17_set_levels_last_write_wins w idW idB mem1 p1 mem2 p2 st nv :
  let first := SetBatteryLevels w idW idB mem1 p1 st nv in
  SetBatteryLevels w idW idB mem2 p2 first.1 first.2
  = SetBatteryLevels w idW idB mem2 p2 st nv.
Proof.
  intros first. subst first. rewrite !SetBatteryLevels_unfold. cbn [fst snd].
  f_equal. apply map_eq. intros id.
  destruct (decide (id = idB)) as [-> | HB];
    [rewrite !lookup_insert_eq; reflexivity|].
  rewrite !(lookup_insert_ne _ idB) by congruence.
  destruct (decide (id = idW)) as [-> | HW];
    [rewrite !lookup_insert_eq; reflexivity|].
  rewrite !(lookup_insert_ne _ idW) by congruence.
  rewrite !(lookup_insert_ne _ idB) by congruence.
  rewrite !(lookup_insert_ne _ idW) by congruence. reflexivity.
Qed.

(** ** The further properties at concrete inputs *)

Lemma boot_state_ok : state_ok 16 boot_state.
Proof.
  constructor; cbn; unfold in_uint, is_flag, MAX_SAMPLES; try lia; auto;
    repeat constructor; lia.
Qed.

Lemma X1_state_stays_in_range_witness :
  let ops := [OpBatterySenseCycle (MkHw 0 0) (MkCal true (-1));
              OpLightSenseCycle (MkHw 4095 2);
              OpLowBatteryMonitor (MkEnv false false (fun _ => 0));
              OpSetBatteryLevels (fun _ => 255) 0;
              OpHardwareCfgCycle (MkHw 77 0)] in
  let s := run_ops 16 1 2 ops (InitializeAdc 1 2 boot_state ∅) in
  16 <= 16
  /\ length (BatterySenseSamples boot_state) = Z.to_nat MAX_SAMPLES
  /\ length (LightSenseSamples boot_state) = Z.to_nat MAX_SAMPLES
  /\ Forall (in_uint 16) (BatterySenseSamples boot_state)
  /\ Forall (in_uint 16) (LightSenseSamples boot_state)
  /\ store_ok 16 1 2 ∅
  /\ state_ok 16 s.1 /\ store_ok 16 1 2 s.2.
Proof.
  intros ops s.
  assert (H1 : 16 <= 16) by lia.
  assert (H2 : length (BatterySenseSamples boot_state) = Z.to_nat MAX_SAMPLES)
    by reflexivity.
  assert (H3 : length (LightSenseSamples boot_state) = Z.to_nat MAX_SAMPLES)
    by reflexivity.
  assert (H4 : Forall (in_uint 16) (BatterySenseSamples boot_state))
    by (repeat constructor; lia).
  assert (H5 : Forall (in_uint 16) (LightSenseSamples boot_state))
    by (repeat constructor; lia).
  assert (H6 : store_ok 16 1 2 ∅)
    by (intros id v _ Hl; rewrite lookup_empty in Hl; discriminate).
  repeat (split; [assumption|]).
  exact (X1_state_stays_in_range 16 1 2 boot_state ∅ ops H1 H2 H3 H4 H5 H6).
Defined.

Lemma X6_second_evaluation_is_silent_witness :
  let env := MkEnv false false (fun _ => 0) in
  let st := (BatterySenseCycle 16 (MkHw 2000 0) (MkCal false 0)
               (InitializeAdc 1 2 boot_state ∅).1).1 in
  let first := LowBatteryMonitor 16 env st in
  QueryPowerGood env = QueryPowerGood env
  /\ length (routed first.2) = 6%nat
  /\ routed (LowBatteryMonitor 16 env first.1).2 = []
  /\ (LowBatteryMonitor 16 env first.1).1 = first.1.
Proof.
  intros env st first.
  assert (H1 : QueryPowerGood env = QueryPowerGood env) by reflexivity.
  split; [exact H1|]. split; [vm_compute; reflexivity|].
  exact (X6_second_evaluation_is_silent 16 env env st H1).
Defined.

Lemma X7_each_alert_at_most_once_witness :
  let env := MkEnv false false (fun _ => 0) in
  let ops := [OpBatterySenseCycle (MkHw 2000 0) (MkCal false 0);
              OpLowBatteryMonitor env;
              OpBatterySenseCycle (MkHw 2600 0) (MkCal false 0);
              OpLowBatteryMonitor env;
              OpBatterySenseCycle (MkHw 1900 0) (MkCal false 0);
              OpSetBatteryLevels (fun _ => 40) 0;
              OpLowBatteryMonitor env] in
  let s := InitializeAdc 1 2 boot_state ∅ in
  Forall (fun o => power_good_op o = false) ops
  /\ count_type LowBatteryBtOffMsgHost (run_log 16 1 2 ops s) = 1%nat
  /\ (count_type LowBatteryBtOffMsgHost (run_log 16 1 2 ops s)
      <= btoff_budget s.1)%nat
  /\ (count_type LowBatteryWarningMsgHost (run_log 16 1 2 ops s)
      <= warning_budget s.1)%nat.
Proof.
  intros env ops s.
  assert (H1 : Forall (fun o => power_good_op o = false) ops)
    by (repeat constructor).
  split; [exact H1|]. split; [vm_compute; reflexivity|].
  destruct (X7_each_alert_at_most_once 16 1 2 ops s H1) as (A & _ & B & _).
  split; [exact A | exact B].
Defined.

Lemma X8_btoff_never_without_warning_witness :
  let env := MkEnv false false (fun _ => 0) in
  let ops := [OpBatterySenseCycle (MkHw 2150 0) (MkCal false 0);
              OpLowBatteryMonitor env;
              OpSetBatteryLevels (fun a => if a =? 0 then 36 else 35) 0;
              OpLowBatteryMonitor env] in
  let s := InitializeAdc 1 2 boot_state ∅ in
  let s' := run_ops 16 1 2 ops s in
  16 <= 16
  /\ Forall (fun o => levels_ordered_op o = true) ops
  /\ LowBatteryBtOffLevel s.1 <= LowBatteryWarningLevel s.1
  /\ (LowBatteryBtOffMessageSent s.1 <> 0 -> LowBatteryWarningMessageSent s.1 <> 0)
  /\ LowBatteryBtOffMessageSent s'.1 = 1
  /\ (LowBatteryBtOffMessageSent s'.1 <> 0 ->
      LowBatteryWarningMessageSent s'.1 <> 0).
Proof.
  intros env ops s s'.
  assert (H1 : 16 <= 16) by lia.
  assert (H2 : Forall (fun o => levels_ordered_op o = true) ops)
    by (repeat constructor).
  assert (H3 : LowBatteryBtOffLevel s.1 <= LowBatteryWarningLevel s.1)
    by (vm_compute; discriminate).
  assert (H4 : LowBatteryBtOffMessageSent s.1 <> 0 ->
               LowBatteryWarningMessageSent s.1 <> 0)
    by (intros H; exfalso; apply H; reflexivity).
  repeat (split; [assumption|]). split; [vm_compute; reflexivity|].
  exact (proj2 (X8_btoff_never_without_warning 16 1 2 ops s H1 H2 H3 H4)).
Defined.

Lemma X10_thresholds_survive_restart_witness :
  let mem := fun a : Z => if a =? 100 then 36 else 34 in
  let ops := [OpBatterySenseCycle (MkHw 2000 0) (MkCal false 0);
              OpLowBatteryMonitor (MkEnv false false (fun _ => 0))] in
  let before := run_ops 16 1 2 ops (SetBatteryLevels 16 1 2 mem 100 boot_state ∅) in
  let after := InitializeAdc 1 2 before.1 before.2 in
  16 <= 16 /\ 1 <> 2
  /\ mem 100 = 36 /\ mem (100 + 1) = 34 /\ 0 <= 36 <= 255 /\ 0 <= 34 <= 255
  /\ Forall (fun o => is_set_levels o = false) ops
  /\ LowBatteryWarningMessageSent before.1 = 1
  /\ LowBatteryWarningLevel after.1 = 36 * 100
  /\ LowBatteryBtOffLevel after.1 = 34 * 100
  /\ LowBatteryWarningMessageSent after.1 = 0.
Proof.
  intros mem ops before after.
  assert (H1 : 16 <= 16) by lia.
  assert (H2 : 1 <> 2) by lia.
  assert (H3 : mem 100 = 36) by reflexivity.
  assert (H4 : mem (100 + 1) = 34) by reflexivity.
  assert (H5 : 0 <= 36 <= 255) by lia.
  assert (H6 : 0 <= 34 <= 255) by lia.
  assert (H7 : Forall (fun o => is_set_levels o = false) ops)
    by (repeat constructor).
  repeat (split; [assumption|]). split; [vm_compute; reflexivity|].
  destruct (X10_thresholds_survive_restart 16 1 2 mem 100 36 34 boot_state ∅ ops
              H1 H2 H3 H4 H5 H6 H7) as (_ & (Ha & Hb) & Hc & _).
  split; [exact Ha|]. split; [exact Hb | exact Hc].
Defined.

Lemma X14_gate_never_deadlocks_witness :
  let b := (BatterySenseCycle 16 (MkHw 2000 1) (MkCal false 0) boot_state).2 in
  let σ := MkSys None (<[0%nat := b]> ∅) in
  reachable 16 σ
  /\ pending σ !! 0%nat = Some b
  /\ exists t tr σ', pending σ !! t = Some tr /\ sys_step 16 σ σ'.
Proof.
  intros b σ.
  assert (Hb : cycle_log 16 b)
    by (exists (MkHw 2000 1), (MkCal false 0), boot_state; now right; left).
  assert (H1 : reachable 16 σ).
  { apply (reachable_step 16 sys_init σ); [apply reachable_init|].
    exact (step_call 16 0%nat b sys_init eq_refl Hb). }
  assert (H2 : pending σ !! 0%nat = Some b) by apply lookup_insert_eq.
  split; [exact H1|]. split; [exact H2|].
  destruct (X14_gate_never_deadlocks 16 σ 0%nat b H1 H2)
    as (t & tr & σ' & Hp & Hs & _).
  exists t, tr, σ'. split; [exact Hp | exact Hs].
Defined.

Lemma X9_zero_threshold_disables_alert_witness :
  let mem := fun a : Z => if a =? 0 then 35 else 0 in
  let env := MkEnv false false (fun _ => 0) in
  let ops := [OpBatterySenseCycle (MkHw 100 0) (MkCal false 0)] in
  let s := run_ops 16 1 2 ops (SetBatteryLevels 16 1 2 mem 0 boot_state ∅) in
  let r := LowBatteryMonitor 16 env s.1 in
  16 <= 16 /\ state_ok 16 boot_state
  /\ Forall (fun o => is_set_levels o = false) ops
  /\ load8 mem (0 + 1) = 0
  /\ ReadBatterySenseAverage 16 s.1 = 157
  /\ count_type LowBatteryWarningMsgHost r.2 = 1%nat
  /\ count_type LowBatteryBtOffMsgHost r.2 = 0%nat.
Proof.
  intros mem env ops s r.
  assert (H1 : 16 <= 16) by lia.
  assert (H2 : Forall (fun o => is_set_levels o = false) ops)
    by (repeat constructor).
  assert (H3 : load8 mem (0 + 1) = 0) by reflexivity.
  split; [exact H1|]. split; [exact boot_state_ok|]. split; [exact H2|].
  split; [exact H3|]. split; [vm_compute; reflexivity|].
  split; [vm_compute; reflexivity|].
  destruct (X9_zero_threshold_disables_alert 16 1 2 mem 0 boot_state ∅ ops env
              H1 boot_state_ok H2) as [H _].
  exact (proj1 (H H3)).
Defined.
